(** * Basket registry, mint state and mint workflow of basket_enhanced

    A shallow embedding of the TypeScript services of the backend
    ([AssetRegistry], [MultiChainAssetRegistry], [MultiChainBasketRegistry],
    [MintStateService], [MultiChainMintStateService], [CREWorkflowService]),
    of the dashboard's [checkMintEligibility] and of the workflow's
    [onMintRequest].

    JavaScript numbers are IEEE-754 binary64 values, modelled with the
    Standard Library's [spec_float] at precision 53 and maximal exponent
    1024; every arithmetic operation is the correctly rounded one
    (round to nearest, ties to even), as in JavaScript.  Registries are
    stdpp finite maps keyed by id; a JavaScript object whose key order
    matters ([asset.chains]) is an association list. *)

From Stdlib Require Import String ZArith List Ascii Bool.
From Stdlib Require Import Floats.SpecFloat.
From stdpp Require Import base gmap strings.

Import ListNotations.
Open Scope Z_scope.

(* ================================================================= *)
(** ** JavaScript numbers *)

Module Js.

Definition prec : Z := 53.
Definition emax : Z := 1024.

(** A JavaScript [number]. *)
Definition number := spec_float.

Definition add (x y : number) : number := SFadd prec emax x y.
Definition mul (x y : number) : number := SFmul prec emax x y.
Definition div (x y : number) : number := SFdiv prec emax x y.

(** Strict (in)equality of numbers: NaN differs from everything and
    [+0 === -0]. *)
Definition eqb (x y : number) : bool := SFeqb x y.

(** The number nearest to an integer ([Number(n)]). *)
Definition of_Z (z : Z) : number := binary_normalize prec emax z 0 false.

(** The number nearest to the rational [num / den], [den > 0]: the
    quotient of the two integers is rounded once. *)
Definition of_ratio (neg : bool) (num den : Z) : number :=
  if Z.eqb num 0 then S754_zero neg
  else let '(q, e, l) := SFdiv_core_binary prec emax num 0 den 0 in
       binary_round_aux prec emax neg q e l.

(** Exact value of a finite number as a dyadic rational [n * 2^e]. *)
Definition dyadic (x : number) : option (Z * Z) :=
  match x with
  | S754_zero _ => Some (0, 0)
  | S754_finite s m e => Some (if s then Z.neg m else Z.pos m, e)
  | _ => None
  end.

(** [value_is x p q]: the exact value of [x] is the rational [p / q]
    ([q > 0]). *)
Definition value_is (x : number) (p q : Z) : bool :=
  match dyadic x with
  | Some (n, e) =>
      if Z.leb 0 e then Z.eqb (n * 2 ^ e * q) p
      else Z.eqb (n * q) (p * 2 ^ (- e))
  | None => false
  end.

(** ** Strings of digits *)

Definition is_digit (c : ascii) : bool :=
  let n := nat_of_ascii c in (48 <=? n)%nat && (n <=? 57)%nat.

Definition digit_val (c : ascii) : Z := Z.of_nat (nat_of_ascii c) - 48.

Fixpoint take_digits (l : list ascii) : list ascii * list ascii :=
  match l with
  | c :: r => if is_digit c then let '(d, r') := take_digits r in (c :: d, r')
              else ([], l)
  | [] => ([], [])
  end.

Definition Z_of_digits (d : list ascii) : Z :=
  fold_left (fun acc c => acc * 10 + digit_val c) d 0.

Definition is_ws (c : ascii) : bool :=
  match nat_of_ascii c with
  | 9 | 10 | 11 | 12 | 13 | 32 => true
  | _ => false
  end%nat.

Fixpoint skip_ws (l : list ascii) : list ascii :=
  match l with
  | c :: r => if is_ws c then skip_ws r else l
  | [] => []
  end.

Fixpoint prefix_of (p l : list ascii) : bool :=
  match p, l with
  | [], _ => true
  | c :: p', d :: l' => Ascii.eqb c d && prefix_of p' l'
  | _ :: _, [] => false
  end.

(** Optional exponent part [(e|E) [+|-] digits]; [0] when absent. *)
Definition exponent_part (l : list ascii) : Z :=
  match l with
  | c :: r =>
      if Ascii.eqb c "e" || Ascii.eqb c "E" then
        let '(neg, r') :=
          match r with
          | s :: r'' => if Ascii.eqb s "-" then (true, r'')
                        else if Ascii.eqb s "+" then (false, r'') else (false, r)
          | [] => (false, r)
          end in
        match take_digits r' with
        | ([], _) => 0
        | (d, _) => if neg then - Z_of_digits d else Z_of_digits d
        end
      else 0
  | [] => 0
  end.

(** [parseFloat(s)]: leading white space, an optional sign, then the
    longest prefix that is [Infinity] or a decimal literal
    [digits [. digits] [exponent]] (at least one digit); [NaN] otherwise.
    The literal's exact value is rounded once to the nearest number.
    (Unicode white space other than the ASCII one is not modelled.) *)
Definition parseFloat (s : string) : number :=
  let l := skip_ws (list_ascii_of_string s) in
  let '(neg, l) :=
    match l with
    | c :: r => if Ascii.eqb c "-" then (true, r)
                else if Ascii.eqb c "+" then (false, r) else (false, l)
    | [] => (false, l)
    end in
  if prefix_of (list_ascii_of_string "Infinity") l then S754_infinity neg
  else
    let '(d1, r1) := take_digits l in
    let '(d2, r2) :=
      match r1 with
      | c :: r => if Ascii.eqb c "." then take_digits r else ([], r1)
      | [] => ([], r1)
      end in
    match d1 ++ d2 with
    | [] => S754_nan
    | ds =>
        let m := Z_of_digits ds in
        let n := exponent_part r2 - Z.of_nat (List.length d2) in
        if Z.eqb m 0 then S754_zero neg
        else if Z.leb 0 n then
          binary_normalize prec emax (if neg then - (m * 10 ^ n) else m * 10 ^ n) 0 false
        else of_ratio neg m (10 ^ (- n))
    end.

(** Decimal digits of a natural number. *)
Fixpoint digits_go (fuel : nat) (n : Z) (acc : list ascii) : list ascii :=
  match fuel with
  | O => acc
  | S f =>
      let acc' := ascii_of_nat (Z.to_nat (n mod 10) + 48) :: acc in
      if Z.ltb n 10 then acc' else digits_go f (n / 10) acc'
  end.

Definition decimal_of_Z (z : Z) : string :=
  let n := Z.abs z in
  let ds := string_of_list_ascii (digits_go (Z.to_nat (Z.log2 n) + 1) n []) in
  if Z.ltb z 0 then String.append "-" ds else ds.

(** [Number.prototype.toString()] on the values where it prints an
    integer: NaN, the infinities, zero and the integral numbers below
    [10^21] in magnitude.  Other numbers (fractional or with an exponent
    in their printed form) are outside this fragment ([None]). *)
Definition toString (x : number) : option string :=
  match x with
  | S754_nan => Some "NaN"%string
  | S754_infinity s => Some (if s then "-Infinity" else "Infinity")%string
  | S754_zero _ => Some "0"%string
  | S754_finite s m e =>
      let n := if Z.leb 0 e then Z.pos m * 2 ^ e
               else if Z.eqb (Z.pos m mod 2 ^ (- e)) 0 then Z.pos m / 2 ^ (- e) else -1 in
      if Z.leb 0 n && Z.ltb n (10 ^ 21) then
        Some (decimal_of_Z (if s then - n else n))
      else None
  end.

End Js.

(** A thrown [Error] or a returned value. *)
Inductive Result (E A : Type) : Type :=
| Ok : A -> Result E A
| Throw : E -> Result E A.
Arguments Ok {E A} _.
Arguments Throw {E A} _.

(** Values of a free-form [metadata] record ([Record<string, any>]);
    nested objects are not represented. *)
Inductive MetaValue :=
| MNum (n : Js.number)
| MStr (s : string)
| MBool (b : bool).

Definition Metadata := list (string * MetaValue).

(* ================================================================= *)
(** ** Single-chain asset registry ([services/asset-registry.ts]) *)

Module Registry.

Inductive AssetType := Monetary | DigitalAsset | Nft | PhysicalBacked | Custom.

Definition AssetType_eqb (x y : AssetType) : bool :=
  match x, y with
  | Monetary, Monetary | DigitalAsset, DigitalAsset | Nft, Nft
  | PhysicalBacked, PhysicalBacked | Custom, Custom => true
  | _, _ => false
  end.

Record Asset := mkAsset {
  asset_id : string;
  asset_type : AssetType;
  asset_name : string;
  asset_symbol : string;
  asset_decimals : Z;
  asset_contractAddress : string;
  asset_metadata : option Metadata;
  asset_createdAt : string;
  asset_updatedAt : string
}.

Record BasketAsset := mkBasketAsset {
  ba_assetId : string;
  ba_weight : Js.number;   (* percentage 0-100 *)
  ba_proportion : string
}.

Inductive BasketStatus := Active | Paused | Deprecated.

Record Basket := mkBasket {
  basket_id : string;
  basket_name : string;
  basket_symbol : string;
  basket_description : option string;
  basket_assets : list BasketAsset;
  basket_totalValueLocked : option string;
  basket_status : BasketStatus;
  basket_createdAt : string;
  basket_updatedAt : string
}.

(** The two maps of an [AssetRegistry] instance. *)
Record AssetRegistry := mkRegistry {
  assets : gmap string Asset;
  baskets : gmap string Basket
}.

(** The registry that starts fresh (no data files). *)
Definition empty_registry : AssetRegistry := mkRegistry ∅ ∅.

(** The errors thrown by the registry, one per [throw new Error(...)]. *)
Inductive RegistryError :=
| AssetAlreadyExists (id : string)        (* `Asset ${id} already exists` *)
| BasketAlreadyExists (id : string)       (* `Basket ${id} already exists` *)
| AssetNotFound (id : string)             (* `Asset ${id} not found` *)
| InvalidWeights (totalWeight : Js.number)
    (* `Asset weights must sum to 100 (current: ${totalWeight})` *)
| BasketNotFound (id : string).           (* `Basket ${id} not found` *)

(** [registerAsset]: the input's timestamps are overwritten by [now]
    ([{...asset, createdAt: now, updatedAt: now}]). *)
Definition registerAsset (now : string) (a : Asset) (r : AssetRegistry)
  : Result RegistryError (AssetRegistry * Asset) :=
  match assets r !! asset_id a with
  | Some _ => Throw (AssetAlreadyExists (asset_id a))
  | None =>
      let full := {| asset_id := asset_id a; asset_type := asset_type a;
                     asset_name := asset_name a; asset_symbol := asset_symbol a;
                     asset_decimals := asset_decimals a;
                     asset_contractAddress := asset_contractAddress a;
                     asset_metadata := asset_metadata a;
                     asset_createdAt := now; asset_updatedAt := now |} in
      Ok (mkRegistry (<[asset_id a := full]> (assets r)) (baskets r), full)
  end.

Definition getAsset (id : string) (r : AssetRegistry) : option Asset := assets r !! id.
Definition getBasket (id : string) (r : AssetRegistry) : option Basket := baskets r !! id.

(** The first basket asset (in order) whose asset is not registered. *)
Fixpoint first_missing (m : gmap string Asset) (l : list BasketAsset) : option string :=
  match l with
  | [] => None
  | ba :: l' =>
      match m !! ba_assetId ba with
      | None => Some (ba_assetId ba)
      | Some _ => first_missing m l'
      end
  end.

(** [basket.assets.reduce((sum, ba) => sum + ba.weight, 0)] *)
Definition totalWeight (l : list BasketAsset) : Js.number :=
  fold_left (fun sum ba => Js.add sum (ba_weight ba)) l (Js.of_Z 0).

Definition createBasket (now : string) (b : Basket) (r : AssetRegistry)
  : Result RegistryError (AssetRegistry * Basket) :=
  match baskets r !! basket_id b with
  | Some _ => Throw (BasketAlreadyExists (basket_id b))
  | None =>
      match first_missing (assets r) (basket_assets b) with
      | Some id => Throw (AssetNotFound id)
      | None =>
          let tw := totalWeight (basket_assets b) in
          if negb (Js.eqb tw (Js.of_Z 100)) then Throw (InvalidWeights tw)
          else
            let full := {| basket_id := basket_id b; basket_name := basket_name b;
                           basket_symbol := basket_symbol b;
                           basket_description := basket_description b;
                           basket_assets := basket_assets b;
                           basket_totalValueLocked := basket_totalValueLocked b;
                           basket_status := basket_status b;
                           basket_createdAt := now; basket_updatedAt := now |} in
            Ok (mkRegistry (assets r) (<[basket_id b := full]> (baskets r)), full)
      end
  end.

(** The loop of [expandBasket]: an entry whose asset is not registered is
    skipped ([if (!asset) continue;]); otherwise the amount is
    [(totalAmountNum * basketAsset.weight) / 100]. *)
Fixpoint expand_entries (m : gmap string Asset) (total : Js.number)
    (l : list BasketAsset) : list (Asset * Js.number) :=
  match l with
  | [] => []
  | ba :: l' =>
      match m !! ba_assetId ba with
      | None => expand_entries m total l'
      | Some a =>
          (a, Js.div (Js.mul total (ba_weight ba)) (Js.of_Z 100))
            :: expand_entries m total l'
      end
  end.

(** [expandBasket(basketId, totalAmount)].  The source returns each amount
    as [proportionalAmount.toString()]; the entries here carry the number,
    and statements about the returned strings apply [Js.toString]. *)
Definition expandBasket (basketId totalAmount : string) (r : AssetRegistry)
  : Result RegistryError (list (Asset * Js.number)) :=
  match baskets r !! basketId with
  | None => Throw (BasketNotFound basketId)
  | Some basket => Ok (expand_entries (assets r) (Js.parseFloat totalAmount) (basket_assets basket))
  end.

(** Registry mutations issued by callers; a call that throws leaves the
    registry unchanged (the maps are only written after validation). *)
Inductive RegistryOp :=
| OpRegisterAsset (now : string) (a : Asset)
| OpCreateBasket (now : string) (b : Basket).

Definition apply_op (r : AssetRegistry) (op : RegistryOp) : AssetRegistry :=
  match op with
  | OpRegisterAsset now a =>
      match registerAsset now a r with Ok (r', _) => r' | Throw _ => r end
  | OpCreateBasket now b =>
      match createBasket now b r with Ok (r', _) => r' | Throw _ => r end
  end.

Definition run_ops (ops : list RegistryOp) (r : AssetRegistry) : AssetRegistry :=
  fold_left apply_op ops r.

End Registry.

(* ================================================================= *)
(** ** JavaScript plain objects used as maps *)

Module JsObject.

(** An object's own enumerable properties, in property-creation order;
    the keys are distinct. *)
Definition obj (V : Type) := list (string * V).

(** Canonical array-index keys: ["0"] or digits without a leading zero,
    below [2^32 - 1]. *)
Definition array_index (k : string) : option Z :=
  let l := list_ascii_of_string k in
  match Js.take_digits l with
  | (d, []) =>
      match d with
      | [] => None
      | c :: r =>
          if Ascii.eqb c "0" && negb (Nat.eqb (List.length r) 0) then None
          else let v := Js.Z_of_digits d in
               if Z.ltb v (2 ^ 32 - 1) then Some v else None
      end
  | _ => None
  end.

Fixpoint insert_by_index (k : string) (v : Z) (l : list (string * Z)) : list (string * Z) :=
  match l with
  | [] => [(k, v)]
  | (k', v') :: l' => if Z.ltb v v' then (k, v) :: l else (k', v') :: insert_by_index k v l'
  end.

Fixpoint index_keys (l : list string) : list (string * Z) :=
  match l with
  | [] => []
  | k :: l' =>
      match array_index k with
      | Some v => insert_by_index k v (index_keys l')
      | None => index_keys l'
      end
  end.

(** [Object.keys(o)]: array-index keys in ascending numeric order, then
    the other string keys in creation order. *)
Definition keys {V} (o : obj V) : list string :=
  let ks := map fst o in
  map fst (index_keys ks) ++ List.filter (fun k => match array_index k with Some _ => false | None => true end) ks.

(** The names of [Object.prototype]'s properties, inherited by every
    plain object. *)
Definition prototype_props : list string :=
  ["constructor"; "__defineGetter__"; "__defineSetter__"; "hasOwnProperty";
   "__lookupGetter__"; "__lookupSetter__"; "isPrototypeOf";
   "propertyIsEnumerable"; "toString"; "valueOf"; "__proto__";
   "toLocaleString"]%string.

Definition has_own {V} (o : obj V) (k : string) : bool :=
  existsb (fun kv => String.eqb (fst kv) k) o.

(** Truthiness of [o[k]] where every own value is an object: an own
    property, or one inherited from [Object.prototype] (all of which are
    functions or objects, hence truthy). *)
Definition get_truthy {V} (o : obj V) (k : string) : bool :=
  has_own o k || existsb (String.eqb k) prototype_props.

(** [o[k] = v] for a key that is not an own property yet. *)
Definition set_new {V} (o : obj V) (k : string) (v : V) : obj V := o ++ [(k, v)].

(** [delete o[k]] *)
Definition delete {V} (o : obj V) (k : string) : obj V :=
  List.filter (fun kv => negb (String.eqb (fst kv) k)) o.

(** [x === k] for a string-or-undefined [x] and a string [k]. *)
Definition strict_eq (x : option string) (k : string) : bool :=
  match x with Some s => String.eqb s k | None => false end.

(** The property key an [undefined] value stands for. *)
Definition key_of (k : option string) : string :=
  match k with Some s => s | None => "undefined"%string end.

End JsObject.

(* ================================================================= *)
(** ** Multi-chain registries ([services/multichain-asset-registry.ts],
       [services/multichain-basket-registry.ts]) *)

Module MultiChain.

Import Registry.

Record ChainAsset := mkChainAsset {
  ca_chainId : string;
  ca_contractAddress : string;
  ca_decimals : Z;
  ca_metadata : option Metadata
}.

(** [defaultChain] is [None] where the code stores [undefined]
    ([remainingChains[0]] of an empty array). *)
Record MultiChainAsset := mkMultiChainAsset {
  mca_id : string;
  mca_type : AssetType;
  mca_name : string;
  mca_symbol : string;
  mca_chains : JsObject.obj ChainAsset;
  mca_defaultChain : option string;
  mca_metadata : option Metadata;
  mca_createdAt : string;
  mca_updatedAt : string
}.

Record ChainBasketAsset := mkChainBasketAsset {
  cba_assetId : string;
  cba_weight : Js.number;
  cba_proportion : string;
  cba_chainId : option string
}.

Record MultiChainBasket := mkMultiChainBasket {
  mcb_id : string;
  mcb_name : string;
  mcb_symbol : string;
  mcb_description : option string;
  mcb_assets : list ChainBasketAsset;
  mcb_supportedChains : list string;
  mcb_defaultChain : option string;
  mcb_status : BasketStatus;
  mcb_createdAt : string;
  mcb_updatedAt : string
}.

Inductive MultiChainError :=
| McAssetAlreadyExists (id : string)      (* `Asset ${id} already exists` *)
| McNoChains                              (* 'Asset must be deployed on at least one chain' *)
| McDefaultNotInChains (d : option string)
    (* `Default chain ${asset.defaultChain} not found in asset chains` *)
| McAssetNotFound (id : string)           (* `Asset ${assetId} not found` *)
| McAlreadyDeployed (id chain : string)   (* `Asset ... already deployed on chain ...` *)
| McNotDeployed (id chain : string)       (* `Asset ... not deployed on chain ...` *)
| McOnlyChain                             (* 'Cannot remove asset from its only chain' *)
| McBasketAlreadyExists (id : string)     (* `Basket ${id} already exists` *)
| McNoSupportedChains                     (* 'Basket must support at least one chain' *)
| McDefaultNotSupported (d : option string)
    (* `Default chain ${basket.defaultChain} not in supported chains` *)
| McInvalidWeights (totalWeight : Js.number)
    (* `Asset weights must sum to 100 (current: ${totalWeight})` *)
| McBasketNotFound (id : string)          (* `Basket ${basketId} not found` *)
| McAlreadySupports (id chain : string)   (* `Basket ... already supports chain ...` *)
| McDoesNotSupport (id chain : string)    (* `Basket ... does not support chain ...` *)
| McBasketOnlyChain.                      (* 'Cannot remove basket from its only chain' *)

Definition with_asset_chains (a : MultiChainAsset) (c : JsObject.obj ChainAsset)
    (d : option string) (now : string) : MultiChainAsset :=
  {| mca_id := mca_id a; mca_type := mca_type a; mca_name := mca_name a;
     mca_symbol := mca_symbol a; mca_chains := c; mca_defaultChain := d;
     mca_metadata := mca_metadata a; mca_createdAt := mca_createdAt a;
     mca_updatedAt := now |}.

Definition registerMultiChainAsset (now : string) (a : MultiChainAsset)
    (m : gmap string MultiChainAsset)
  : Result MultiChainError (gmap string MultiChainAsset * MultiChainAsset) :=
  match m !! mca_id a with
  | Some _ => Throw (McAssetAlreadyExists (mca_id a))
  | None =>
      if Nat.eqb (List.length (JsObject.keys (mca_chains a))) 0 then Throw McNoChains
      else if negb (JsObject.get_truthy (mca_chains a) (JsObject.key_of (mca_defaultChain a)))
      then Throw (McDefaultNotInChains (mca_defaultChain a))
      else
        let full := {| mca_id := mca_id a; mca_type := mca_type a; mca_name := mca_name a;
                       mca_symbol := mca_symbol a; mca_chains := mca_chains a;
                       mca_defaultChain := mca_defaultChain a;
                       mca_metadata := mca_metadata a;
                       mca_createdAt := now; mca_updatedAt := now |} in
        Ok (<[mca_id a := full]> m, full)
  end.

Definition addAssetToChain (now assetId chainId : string) (ca : ChainAsset)
    (m : gmap string MultiChainAsset)
  : Result MultiChainError (gmap string MultiChainAsset * MultiChainAsset) :=
  match m !! assetId with
  | None => Throw (McAssetNotFound assetId)
  | Some a =>
      if JsObject.get_truthy (mca_chains a) chainId then Throw (McAlreadyDeployed assetId chainId)
      else
        let a' := with_asset_chains a (JsObject.set_new (mca_chains a) chainId ca)
                    (mca_defaultChain a) now in
        Ok (<[assetId := a']> m, a')
  end.

Definition removeAssetFromChain (now assetId chainId : string)
    (m : gmap string MultiChainAsset)
  : Result MultiChainError (gmap string MultiChainAsset * MultiChainAsset) :=
  match m !! assetId with
  | None => Throw (McAssetNotFound assetId)
  | Some a =>
      if negb (JsObject.get_truthy (mca_chains a) chainId) then Throw (McNotDeployed assetId chainId)
      else if Nat.eqb (List.length (JsObject.keys (mca_chains a))) 1 then Throw McOnlyChain
      else
        let d :=
          if JsObject.strict_eq (mca_defaultChain a) chainId then
            head (List.filter (fun c => negb (String.eqb c chainId)) (JsObject.keys (mca_chains a)))
          else mca_defaultChain a in
        let a' := with_asset_chains a (JsObject.delete (mca_chains a) chainId) d now in
        Ok (<[assetId := a']> m, a')
  end.

(** [supportedChains.includes(x)] (SameValueZero on strings; [undefined]
    is never included in a list of strings). *)
Definition includes (l : list string) (x : option string) : bool :=
  existsb (JsObject.strict_eq x) l.

Definition with_basket_chains (b : MultiChainBasket) (c : list string)
    (d : option string) (now : string) : MultiChainBasket :=
  {| mcb_id := mcb_id b; mcb_name := mcb_name b; mcb_symbol := mcb_symbol b;
     mcb_description := mcb_description b; mcb_assets := mcb_assets b;
     mcb_supportedChains := c; mcb_defaultChain := d; mcb_status := mcb_status b;
     mcb_createdAt := mcb_createdAt b; mcb_updatedAt := now |}.

Definition totalWeight (l : list ChainBasketAsset) : Js.number :=
  fold_left (fun sum ba => Js.add sum (cba_weight ba)) l (Js.of_Z 0).

Definition createBasket (now : string) (b : MultiChainBasket)
    (m : gmap string MultiChainBasket)
  : Result MultiChainError (gmap string MultiChainBasket * MultiChainBasket) :=
  match m !! mcb_id b with
  | Some _ => Throw (McBasketAlreadyExists (mcb_id b))
  | None =>
      if Nat.eqb (List.length (mcb_supportedChains b)) 0 then Throw McNoSupportedChains
      else if negb (includes (mcb_supportedChains b) (mcb_defaultChain b))
      then Throw (McDefaultNotSupported (mcb_defaultChain b))
      else
        let tw := totalWeight (mcb_assets b) in
        if negb (Js.eqb tw (Js.of_Z 100)) then Throw (McInvalidWeights tw)
        else
          let full := {| mcb_id := mcb_id b; mcb_name := mcb_name b;
                         mcb_symbol := mcb_symbol b; mcb_description := mcb_description b;
                         mcb_assets := mcb_assets b;
                         mcb_supportedChains := mcb_supportedChains b;
                         mcb_defaultChain := mcb_defaultChain b; mcb_status := mcb_status b;
                         mcb_createdAt := now; mcb_updatedAt := now |} in
          Ok (<[mcb_id b := full]> m, full)
  end.

Definition addChainToBasket (now basketId chainId : string)
    (m : gmap string MultiChainBasket)
  : Result MultiChainError (gmap string MultiChainBasket * MultiChainBasket) :=
  match m !! basketId with
  | None => Throw (McBasketNotFound basketId)
  | Some b =>
      if includes (mcb_supportedChains b) (Some chainId) then Throw (McAlreadySupports basketId chainId)
      else
        let b' := with_basket_chains b (mcb_supportedChains b ++ [chainId]) (mcb_defaultChain b) now in
        Ok (<[basketId := b']> m, b')
  end.

Definition removeChainFromBasket (now basketId chainId : string)
    (m : gmap string MultiChainBasket)
  : Result MultiChainError (gmap string MultiChainBasket * MultiChainBasket) :=
  match m !! basketId with
  | None => Throw (McBasketNotFound basketId)
  | Some b =>
      if negb (includes (mcb_supportedChains b) (Some chainId)) then Throw (McDoesNotSupport basketId chainId)
      else if Nat.eqb (List.length (mcb_supportedChains b)) 1 then Throw McBasketOnlyChain
      else
        let remaining := List.filter (fun c => negb (String.eqb c chainId)) (mcb_supportedChains b) in
        let d := if JsObject.strict_eq (mcb_defaultChain b) chainId then head remaining
                 else mcb_defaultChain b in
        let b' := with_basket_chains b remaining d now in
        Ok (<[basketId := b']> m, b')
  end.

(** Mutations of the two multi-chain registries; a throwing call leaves
    its registry unchanged. *)
Inductive McOp :=
| OpRegisterMcAsset (now : string) (a : MultiChainAsset)
| OpAddAssetChain (now assetId chainId : string) (ca : ChainAsset)
| OpRemoveAssetChain (now assetId chainId : string)
| OpCreateMcBasket (now : string) (b : MultiChainBasket)
| OpAddBasketChain (now basketId chainId : string)
| OpRemoveBasketChain (now basketId chainId : string).

Record McState := mkMcState {
  mc_assets : gmap string MultiChainAsset;
  mc_baskets : gmap string MultiChainBasket
}.

Definition keep {E A B} (r : Result E (A * B)) (old : A) : A :=
  match r with Ok (x, _) => x | Throw _ => old end.

Definition apply_mc_op (s : McState) (op : McOp) : McState :=
  match op with
  | OpRegisterMcAsset now a =>
      mkMcState (keep (registerMultiChainAsset now a (mc_assets s)) (mc_assets s)) (mc_baskets s)
  | OpAddAssetChain now aid c ca =>
      mkMcState (keep (addAssetToChain now aid c ca (mc_assets s)) (mc_assets s)) (mc_baskets s)
  | OpRemoveAssetChain now aid c =>
      mkMcState (keep (removeAssetFromChain now aid c (mc_assets s)) (mc_assets s)) (mc_baskets s)
  | OpCreateMcBasket now b =>
      mkMcState (mc_assets s) (keep (createBasket now b (mc_baskets s)) (mc_baskets s))
  | OpAddBasketChain now bid c =>
      mkMcState (mc_assets s) (keep (addChainToBasket now bid c (mc_baskets s)) (mc_baskets s))
  | OpRemoveBasketChain now bid c =>
      mkMcState (mc_assets s) (keep (removeChainFromBasket now bid c (mc_baskets s)) (mc_baskets s))
  end.

Definition run_mc_ops (ops : list McOp) (s : McState) : McState := fold_left apply_mc_op ops s.

Definition empty_mc : McState := mkMcState ∅ ∅.

(** The chain-set invariant of the spec: a non-empty chain set that
    contains the default chain-id. *)
Definition asset_chains_ok (a : MultiChainAsset) : Prop :=
  JsObject.keys (mca_chains a) <> [] /\
  exists d, mca_defaultChain a = Some d /\ In d (JsObject.keys (mca_chains a)).

Definition basket_chains_ok (b : MultiChainBasket) : Prop :=
  mcb_supportedChains b <> [] /\
  exists d, mcb_defaultChain b = Some d /\ In d (mcb_supportedChains b).

End MultiChain.

(* ================================================================= *)
(** ** Mint records ([services/mint-state.ts],
       [services/multichain-mint-state.ts]) *)

(** The [status] property of a stored record: one of the three values of
    the [MintStatus] type, or [undefined] ([StatusUndefined]), which an
    update passing [status: undefined] leaves in the record (the type of
    [updates] has [status?], so it admits [undefined]). *)
Inductive MintStatus := Pending | Completed | Failed | StatusUndefined.

(** The statuses an update may carry ([status?: 'completed' | 'failed']). *)
Inductive TerminalStatus := TCompleted | TFailed.

Definition status_of (t : TerminalStatus) : MintStatus :=
  match t with TCompleted => Completed | TFailed => Failed end.

Definition is_terminal (s : MintStatus) : bool :=
  match s with Completed | Failed => true | Pending | StatusUndefined => false end.

Inductive MintStateError :=
| MintRecordNotFound (id : string).   (* `Mint record ${id} not found` *)

Module MintState.

Import Registry.

(** A minted asset; [ma_amount] is the number whose [toString()] the
    source stores. *)
Record MintedAsset := mkMintedAsset {
  ma_assetId : string;
  ma_symbol : string;
  ma_type : AssetType;
  ma_amount : Js.number;
  ma_contractAddress : string;
  ma_txHash : option string
}.

Record MintRecord := mkMintRecord {
  mr_id : string;
  mr_basketId : string;
  mr_transactionId : string;
  mr_beneficiary : string;
  mr_amount : string;
  mr_assets : list MintedAsset;
  mr_status : MintStatus;
  mr_createdAt : string;
  mr_completedAt : option string;
  mr_error : option string
}.

(** The [updates] argument: [None] is an absent property; the status and
    error properties, when present, may hold [undefined] ([Some None]). *)
Record MintUpdate := mkMintUpdate {
  upd_status : option (option TerminalStatus);
  upd_assets : option (list MintedAsset);
  upd_error : option (option string)
}.

Definition mint_id (transactionId : string) : string := ("mint-" ++ transactionId)%string.

Definition createMintRecord (now basketId transactionId beneficiary amount : string)
    (assets : list MintedAsset) (mints : gmap string MintRecord)
  : gmap string MintRecord * MintRecord :=
  let id := mint_id transactionId in
  let record := {| mr_id := id; mr_basketId := basketId; mr_transactionId := transactionId;
                   mr_beneficiary := beneficiary; mr_amount := amount; mr_assets := assets;
                   mr_status := Pending; mr_createdAt := now; mr_completedAt := None;
                   mr_error := None |} in
  (<[id := record]> mints, record).

(** [{...record, ...updates, completedAt: updates.status ? now : record.completedAt}] *)
Definition apply_update (now : string) (record : MintRecord) (u : MintUpdate) : MintRecord :=
  {| mr_id := mr_id record; mr_basketId := mr_basketId record;
     mr_transactionId := mr_transactionId record; mr_beneficiary := mr_beneficiary record;
     mr_amount := mr_amount record;
     mr_assets := match upd_assets u with Some a => a | None => mr_assets record end;
     mr_status := match upd_status u with
                  | Some (Some t) => status_of t
                  | Some None => StatusUndefined
                  | None => mr_status record
                  end;
     mr_createdAt := mr_createdAt record;
     mr_completedAt := match upd_status u with
                       | Some (Some _) => Some now
                       | Some None | None => mr_completedAt record
                       end;
     mr_error := match upd_error u with Some e => e | None => mr_error record end |}.

Definition updateMintRecord (now id : string) (u : MintUpdate) (mints : gmap string MintRecord)
  : Result MintStateError (gmap string MintRecord * MintRecord) :=
  match mints !! id with
  | None => Throw (MintRecordNotFound id)
  | Some record =>
      let updated := apply_update now record u in
      Ok (<[id := updated]> mints, updated)
  end.

Definition getMintRecord (id : string) (mints : gmap string MintRecord) : option MintRecord :=
  mints !! id.

(** Calls to the service; a throwing update leaves the map unchanged. *)
Inductive MintOp :=
| OpCreate (now basketId transactionId beneficiary amount : string) (assets : list MintedAsset)
| OpUpdate (now id : string) (u : MintUpdate).

Definition apply_mint_op (m : gmap string MintRecord) (op : MintOp) : gmap string MintRecord :=
  match op with
  | OpCreate now b t ben amt a => fst (createMintRecord now b t ben amt a m)
  | OpUpdate now id u => match updateMintRecord now id u m with Ok (m', _) => m' | Throw _ => m end
  end.

Definition run_mint_ops (ops : list MintOp) (m : gmap string MintRecord) : gmap string MintRecord :=
  fold_left apply_mint_op ops m.

End MintState.

Module McMintState.

Record ChainMintedAsset := mkChainMintedAsset {
  cma_assetId : string;
  cma_symbol : string;
  cma_type : string;
  cma_amount : string;
  cma_chainId : string;
  cma_chainName : string;
  cma_contractAddress : string;
  cma_explorerUrl : option string;
  cma_txHash : option string
}.

Record McMintRecord := mkMcMintRecord {
  mm_id : string;
  mm_basketId : string;
  mm_chainId : string;
  mm_chainName : string;
  mm_transactionId : string;
  mm_beneficiary : string;
  mm_amount : string;
  mm_assets : list ChainMintedAsset;
  mm_status : MintStatus;
  mm_createdAt : string;
  mm_completedAt : option string;
  mm_error : option string
}.

Record McMintUpdate := mkMcMintUpdate {
  mupd_status : option (option TerminalStatus);
  mupd_assets : option (list ChainMintedAsset);
  mupd_error : option (option string)
}.

Definition mint_id (chainId transactionId : string) : string :=
  ("mint-" ++ chainId ++ "-" ++ transactionId)%string.

Definition createMintRecord (now basketId chainId chainName transactionId beneficiary amount : string)
    (assets : list ChainMintedAsset) (mints : gmap string McMintRecord)
  : gmap string McMintRecord * McMintRecord :=
  let id := mint_id chainId transactionId in
  let record := {| mm_id := id; mm_basketId := basketId; mm_chainId := chainId;
                   mm_chainName := chainName; mm_transactionId := transactionId;
                   mm_beneficiary := beneficiary; mm_amount := amount; mm_assets := assets;
                   mm_status := Pending; mm_createdAt := now; mm_completedAt := None;
                   mm_error := None |} in
  (<[id := record]> mints, record).

Definition apply_update (now : string) (record : McMintRecord) (u : McMintUpdate) : McMintRecord :=
  {| mm_id := mm_id record; mm_basketId := mm_basketId record; mm_chainId := mm_chainId record;
     mm_chainName := mm_chainName record; mm_transactionId := mm_transactionId record;
     mm_beneficiary := mm_beneficiary record; mm_amount := mm_amount record;
     mm_assets := match mupd_assets u with Some a => a | None => mm_assets record end;
     mm_status := match mupd_status u with
                  | Some (Some t) => status_of t
                  | Some None => StatusUndefined
                  | None => mm_status record
                  end;
     mm_createdAt := mm_createdAt record;
     mm_completedAt := match mupd_status u with
                       | Some (Some _) => Some now
                       | Some None | None => mm_completedAt record
                       end;
     mm_error := match mupd_error u with Some e => e | None => mm_error record end |}.

Definition updateMintRecord (now id : string) (u : McMintUpdate) (mints : gmap string McMintRecord)
  : Result MintStateError (gmap string McMintRecord * McMintRecord) :=
  match mints !! id with
  | None => Throw (MintRecordNotFound id)
  | Some record =>
      let updated := apply_update now record u in
      Ok (<[id := updated]> mints, updated)
  end.

Inductive McMintOp :=
| OpCreate (now basketId chainId chainName transactionId beneficiary amount : string)
    (assets : list ChainMintedAsset)
| OpUpdate (now id : string) (u : McMintUpdate).

Definition apply_mint_op (m : gmap string McMintRecord) (op : McMintOp) : gmap string McMintRecord :=
  match op with
  | OpCreate now b c cn t ben amt a => fst (createMintRecord now b c cn t ben amt a m)
  | OpUpdate now id u => match updateMintRecord now id u m with Ok (m', _) => m' | Throw _ => m end
  end.

Definition run_mint_ops (ops : list McMintOp) (m : gmap string McMintRecord) : gmap string McMintRecord :=
  fold_left apply_mint_op ops m.

End McMintState.

(* ================================================================= *)
(** ** Mint orchestration ([services/cre-workflow.ts]) *)

Module CREWorkflow.

Import Registry MintState.

Record MintRequest := mkMintRequest {
  req_basketId : string;
  req_beneficiary : string;
  req_amount : string;
  req_assetTypeFilter : option AssetType;
  req_chainId : option string
}.

Record AssetPayload := mkAssetPayload {
  ap_assetId : string;
  ap_symbol : string;
  ap_type : AssetType;
  ap_amount : Js.number;
  ap_contractAddress : string;
  ap_metadata : option Metadata
}.

(** The fields of [buildWorkflowPayload]'s result that vary with the
    request (the constant sender block, the date and the metadata summary
    are left out). *)
Record WorkflowPayload := mkWorkflowPayload {
  wp_transactionId : string;
  wp_beneficiary : string;
  wp_amount : string;
  wp_assets : list AssetPayload
}.

(** The result of [runCRESimulation]; [sim_porVerified] and
    [sim_reserveBalance] are the fields of its JSON [output]. *)
Record SimResult := mkSimResult {
  sim_success : bool;
  sim_porVerified : bool;
  sim_reserveBalance : string;
  sim_error : option string
}.

Record CREWorkflowResult := mkCREWorkflowResult {
  res_success : bool;
  res_transactionId : string;
  res_mintRecord : option MintRecord;
  res_error : option string
}.

(** The backend's state: the asset registry and the mint map. *)
Record State := mkState {
  st_registry : AssetRegistry;
  st_mints : gmap string MintRecord
}.

(** [runCRESimulation]: a mock that resolves, after a timer, with a
    successful POR verification and a fixed reserve balance. *)
Definition runCRESimulation (p : WorkflowPayload) : SimResult :=
  {| sim_success := true; sim_porVerified := true;
     sim_reserveBalance := "1000000000"; sim_error := None |}.

Definition failure (transactionId msg : string) : CREWorkflowResult :=
  {| res_success := false; res_transactionId := transactionId;
     res_mintRecord := None; res_error := Some msg |}.

Definition to_minted (ea : Asset * Js.number) : MintedAsset :=
  {| ma_assetId := asset_id (fst ea); ma_symbol := asset_symbol (fst ea);
     ma_type := asset_type (fst ea); ma_amount := snd ea;
     ma_contractAddress := asset_contractAddress (fst ea); ma_txHash := None |}.

Definition to_payload (ea : Asset * Js.number) : AssetPayload :=
  {| ap_assetId := asset_id (fst ea); ap_symbol := asset_symbol (fst ea);
     ap_type := asset_type (fst ea); ap_amount := snd ea;
     ap_contractAddress := asset_contractAddress (fst ea);
     ap_metadata := asset_metadata (fst ea) |}.

(** [triggerMint] is an async function suspended once, at
    [await this.runCRESimulation(payload)]: it either finishes before
    that point or is awaiting the workflow with the state it left. *)
Inductive Phase :=
| Finished (st : State) (res : CREWorkflowResult)
| AwaitingWorkflow (st : State) (payload : WorkflowPayload)
    (recordId : string) (mintedAssets : list MintedAsset).

(** The code of [triggerMint] up to the [await]. *)
Definition triggerMint_start (now transactionId : string) (request : MintRequest) (st : State)
  : Phase :=
  match getBasket (req_basketId request) (st_registry st) with
  | None => Finished st (failure transactionId ("Basket " ++ req_basketId request ++ " not found"))
  | Some _ =>
      match expandBasket (req_basketId request) (req_amount request) (st_registry st) with
      | Throw _ => Finished st (failure transactionId ("Basket " ++ req_basketId request ++ " not found"))
      | Ok expandedAssets =>
          let filteredAssets :=
            match req_assetTypeFilter request with
            | Some t => List.filter (fun ea => AssetType_eqb (asset_type (fst ea)) t) expandedAssets
            | None => expandedAssets
            end in
          if Nat.eqb (List.length filteredAssets) 0 then
            Finished st (failure transactionId "No assets found matching filter")
          else
            let mintedAssets := map to_minted filteredAssets in
            let '(mints', mintRecord) :=
              createMintRecord now (req_basketId request) transactionId
                (req_beneficiary request) (req_amount request) mintedAssets (st_mints st) in
            let payload := {| wp_transactionId := transactionId;
                              wp_beneficiary := req_beneficiary request;
                              wp_amount := req_amount request;
                              wp_assets := map to_payload filteredAssets |} in
            AwaitingWorkflow (mkState (st_registry st) mints') payload (mr_id mintRecord) mintedAssets
      end
  end.

(** The code of [triggerMint] after the [await], given the workflow's
    result. *)
Definition triggerMint_resume (now transactionId : string) (workflowResult : SimResult)
    (recordId : string) (mintedAssets : list MintedAsset) (st : State) : State * CREWorkflowResult :=
  if sim_success workflowResult then
    match updateMintRecord now recordId
            {| upd_status := Some (Some TCompleted); upd_assets := Some mintedAssets; upd_error := None |}
            (st_mints st) with
    | Ok (mints', updated) =>
        (mkState (st_registry st) mints',
         {| res_success := true; res_transactionId := transactionId;
            res_mintRecord := Some updated; res_error := None |})
    | Throw (MintRecordNotFound id) =>
        (st, failure transactionId ("Mint record " ++ id ++ " not found"))
    end
  else
    match updateMintRecord now recordId
            {| upd_status := Some (Some TFailed); upd_assets := None;
               upd_error := Some (sim_error workflowResult) |} (st_mints st) with
    | Ok (mints', _) =>
        (mkState (st_registry st) mints',
         failure transactionId
           (match sim_error workflowResult with Some e => e | None => "Workflow failed" end))
    | Throw (MintRecordNotFound id) =>
        (st, failure transactionId ("Mint record " ++ id ++ " not found"))
    end.

(** [triggerMint] run without another request interleaved at its [await];
    [now1] and [now2] are the clock before and after the await, and
    [transactionId] is the generated id. *)
Definition triggerMint (now1 now2 transactionId : string) (request : MintRequest) (st : State)
  : State * CREWorkflowResult :=
  match triggerMint_start now1 transactionId request st with
  | Finished st' res => (st', res)
  | AwaitingWorkflow st' payload recordId mintedAssets =>
      triggerMint_resume now2 transactionId (runCRESimulation payload) recordId mintedAssets st'
  end.

End CREWorkflow.

(* ================================================================= *)
(** ** Dashboard eligibility check ([components/MintRequest.tsx]) *)

Module Eligibility.

Definition hex_val (c : ascii) : option Z :=
  let n := Z.of_nat (nat_of_ascii c) in
  if (48 <=? n) && (n <=? 57) then Some (n - 48)
  else if (97 <=? n) && (n <=? 102) then Some (n - 87)
  else if (65 <=? n) && (n <=? 70) then Some (n - 55)
  else None.

(** The longest prefix of digits in [radix] (at most 16). *)
Fixpoint radix_digits (radix : Z) (l : list ascii) : list Z * list ascii :=
  match l with
  | c :: r =>
      match hex_val c with
      | Some v => if Z.ltb v radix then let '(d, r') := radix_digits radix r in (v :: d, r')
                  else ([], l)
      | None => ([], l)
      end
  | [] => ([], [])
  end.

Definition Z_of_radix (radix : Z) (d : list Z) : Z := fold_left (fun acc v => acc * radix + v) d 0.

(** [parseInt(s)] without a radix: white space, a sign, an optional
    [0x]/[0X] prefix selecting base 16, then the longest digit prefix;
    [NaN] without digits.  The integer is rounded to the nearest number. *)
Definition parseInt (s : string) : Js.number :=
  let l := Js.skip_ws (list_ascii_of_string s) in
  let '(neg, l) :=
    match l with
    | c :: r => if Ascii.eqb c "-" then (true, r)
                else if Ascii.eqb c "+" then (false, r) else (false, l)
    | [] => (false, l)
    end in
  let '(radix, l) :=
    match l with
    | z :: x :: r => if Ascii.eqb z "0" && (Ascii.eqb x "x" || Ascii.eqb x "X") then (16, r) else (10, l)
    | _ => (10, l)
    end in
  match radix_digits radix l with
  | ([], _) => S754_nan
  | (d, _) =>
      let v := Z_of_radix radix d in
      if Z.eqb v 0 then S754_zero neg else Js.of_Z (if neg then - v else v)
  end.

Record MintCheckResult := mkMintCheckResult {
  chk_success : bool;
  chk_porValid : bool;
  chk_reserveSufficient : bool;
  chk_reserveBalance : string;
  chk_requestedAmount : string;
  chk_policyCheck : bool
}.

(** [checkMintEligibility(amount)] after its delay.  Its random draws are
    inputs: [reserveDraw] is [Math.floor(Math.random() * 5000000 + 5000000)]
    and [policyDraw] is [Math.random() > 0.2]; [isPORValid] comes from the
    dashboard store. *)
Definition checkMintEligibility (isPORValid : bool) (reserveDraw : Z) (policyDraw : bool)
    (amount : string) : MintCheckResult :=
  let reserveBalance := Js.decimal_of_Z reserveDraw in
  let requestedAmount := parseInt amount in
  let porValid := isPORValid in
  let reserveSufficient := SFleb requestedAmount (parseInt reserveBalance) in
  let policyCheck := policyDraw in
  {| chk_success := porValid && reserveSufficient && policyCheck;
     chk_porValid := porValid; chk_reserveSufficient := reserveSufficient;
     chk_reserveBalance := reserveBalance; chk_requestedAmount := amount;
     chk_policyCheck := policyCheck |}.

End Eligibility.

(* ================================================================= *)
(** ** Mint execution of the workflow ([workflow/main.ts], [onMintRequest]) *)

Module Workflow.

Import Registry.

Record WfAsset := mkWfAsset {
  wa_assetId : string;
  wa_symbol : string;
  wa_type : AssetType;
  wa_amount : string;
  wa_contractAddress : string;
  wa_chainId : string;
  wa_metadata : option Metadata
}.

Record WfChain := mkWfChain {
  wc_id : string;
  wc_name : string;
  wc_chainId : Z;
  wc_rpcUrl : string
}.

Record Payload := mkPayload {
  pl_transactionId : string;
  pl_beneficiary : string;
  pl_amount : string;
  pl_assets : list WfAsset;
  pl_chain : WfChain
}.

Record ChainConfig := mkChainConfig {
  cc_rpcUrl : string;
  cc_stablecoinAddress : string
}.

(** The normalised runtime config; [cfg_decimals] is [None] for a
    [null] or [undefined] [decimals]. *)
Record Config := mkConfig {
  cfg_chains : JsObject.obj ChainConfig;
  cfg_decimals : option Js.number
}.

Inductive WfError :=
| ChainNotConfigured (id : string)   (* `Chain ${payload.chain.id} not configured` *)
| BigIntSyntaxError                  (* BigInt of a string that is not an integer *)
| BigIntRangeError                   (* BigInt of a non-integral number, negative exponent *)
| InvalidAddress                     (* getAddress rejects the beneficiary *)
| SubmitFailed (symbol : string).    (* the transaction submission threw *)

(** [BigInt(n)] for a number: defined on integral values only. *)
Definition bigint_of_number (x : Js.number) : option Z :=
  match x with
  | S754_zero _ => Some 0
  | S754_finite s m e =>
      let v := if Z.leb 0 e then Some (Z.pos m * 2 ^ e)
               else if Z.eqb (Z.pos m mod 2 ^ (- e)) 0 then Some (Z.pos m / 2 ^ (- e)) else None in
      option_map (fun n => if s then - n else n) v
  | _ => None
  end.

(** [BigInt(s)] for a string: white space trimmed on both sides, the
    empty string is [0n], otherwise a signed decimal integer or an
    unsigned [0x]/[0o]/[0b] literal, with nothing after it. *)
Definition bigint_of_string (s : string) : option Z :=
  let l := rev (Js.skip_ws (rev (Js.skip_ws (list_ascii_of_string s)))) in
  match l with
  | [] => Some 0
  | z :: x :: r =>
      let radix := if Ascii.eqb z "0" then
                     if Ascii.eqb x "x" || Ascii.eqb x "X" then 16
                     else if Ascii.eqb x "o" || Ascii.eqb x "O" then 8
                     else if Ascii.eqb x "b" || Ascii.eqb x "B" then 2 else 10
                   else 10 in
      if Z.eqb radix 10 then
        let '(neg, l') := if Ascii.eqb z "-" then (true, x :: r)
                          else if Ascii.eqb z "+" then (false, x :: r) else (false, l) in
        match Eligibility.radix_digits 10 l' with
        | (d, []) => match d with [] => None | _ => Some (let v := Eligibility.Z_of_radix 10 d in if neg then - v else v) end
        | _ => None
        end
      else
        match Eligibility.radix_digits radix r with
        | (d, []) => match d with [] => None | _ => Some (Eligibility.Z_of_radix radix d) end
        | _ => None
        end
  | _ =>
      let '(neg, l') := match l with
                        | c :: r => if Ascii.eqb c "-" then (true, r)
                                    else if Ascii.eqb c "+" then (false, r) else (false, l)
                        | [] => (false, l)
                        end in
      match Eligibility.radix_digits 10 l' with
      | (d, []) => match d with [] => None | _ => Some (let v := Eligibility.Z_of_radix 10 d in if neg then - v else v) end
      | _ => None
      end
  end.

(** [const decimals = (config.decimals ?? 6)] *)
Definition decimals_of (config : Config) : Js.number :=
  match cfg_decimals config with Some d => d | None => Js.of_Z 6 end.

(** [BigInt(asset.amount) * 10n ** BigInt(decimals)] *)
Definition scaledAmount (amount : string) (decimals : Js.number) : Result WfError Z :=
  match bigint_of_string amount with
  | None => Throw BigIntSyntaxError
  | Some a =>
      match bigint_of_number decimals with
      | None => Throw BigIntRangeError
      | Some d => if Z.ltb d 0 then Throw BigIntRangeError else Ok (a * 10 ^ d)
      end
  end.

Section Execution.

(** The external collaborators: [getAddress] of viem (checksummed
    address or throw) and the submission of a mint transaction to a
    contract with the encoded arguments (transaction hash or throw). *)
Variable getAddress : string -> option string.
Variable submit : string -> string -> Z -> option string.

(** One submission: contract address, beneficiary, scaled amount. *)
Definition Call := (string * string * Z)%type.

(** The per-asset loop; it returns the submissions made, in order, and
    the transaction hashes or the error that ended it. *)
Fixpoint mint_loop (config : Config) (beneficiary : string) (l : list WfAsset)
  : list Call * Result WfError (list (string * string)) :=
  match l with
  | [] => ([], Ok [])
  | asset :: l' =>
      let decimals := decimals_of config in
      match scaledAmount (wa_amount asset) decimals with
      | Throw e => ([], Throw e)
      | Ok scaled =>
          match getAddress beneficiary with
          | None => ([], Throw InvalidAddress)
          | Some addr =>
              let call := (wa_contractAddress asset, addr, scaled) in
              match submit (wa_contractAddress asset) addr scaled with
              | None => ([call], Throw (SubmitFailed (wa_symbol asset)))
              | Some h =>
                  let '(calls, r) := mint_loop config beneficiary l' in
                  (call :: calls,
                   match r with Ok hs => Ok ((wa_symbol asset, h) :: hs) | Throw e => Throw e end)
              end
          end
      end
  end.

Definition onMintRequest (config : Config) (payload : Payload)
  : list Call * Result WfError (list (string * string)) :=
  if negb (JsObject.get_truthy (cfg_chains config) (wc_id (pl_chain payload))) then
    ([], Throw (ChainNotConfigured (wc_id (pl_chain payload))))
  else mint_loop config (pl_beneficiary payload) (pl_assets payload).

End Execution.

End Workflow.

(* ================================================================= *)
(** ** Queries and statistics of the mint services *)

(** A service's [this.mints.forEach(...)] visits the Map's values in its
    iteration order; the functions below take that list of values. *)

Definition MintStatus_eqb (x y : MintStatus) : bool :=
  match x, y with
  | Pending, Pending | Completed, Completed | Failed, Failed
  | StatusUndefined, StatusUndefined => true
  | _, _ => false
  end.

Module MintStats.

Import MintState.

Definition getMintsByBasket (basketId : string) (mints : list MintRecord) : list MintRecord :=
  List.filter (fun m => String.eqb (mr_basketId m) basketId) mints.

Definition getMintsByBeneficiary (beneficiary : string) (mints : list MintRecord) : list MintRecord :=
  List.filter (fun m => String.eqb (mr_beneficiary m) beneficiary) mints.

Definition status_is (s : MintStatus) (m : MintRecord) : bool := MintStatus_eqb (mr_status m) s.

(** The result of [getTotalMintedByAsset]; [ta_totalAmount] is the number
    whose [toString()] is returned.  [parseFloat(asset.amount)] is
    [ma_amount]: the stored string is that number's [toString()], which
    reads back as the same number. *)
Record AssetTotal := mkAssetTotal {
  ta_symbol : string;
  ta_totalAmount : Js.number;
  ta_count : nat
}.

Definition add_asset (assetId : string) (acc : AssetTotal) (asset : MintedAsset) : AssetTotal :=
  if String.eqb (ma_assetId asset) assetId then
    mkAssetTotal (ma_symbol asset) (Js.add (ta_totalAmount acc) (ma_amount asset)) (S (ta_count acc))
  else acc.

Definition getTotalMintedByAsset (assetId : string) (mints : list MintRecord) : AssetTotal :=
  fold_left (fun acc mint =>
               if status_is Completed mint then fold_left (add_asset assetId) (mr_assets mint) acc
               else acc)
    mints (mkAssetTotal assetId (Js.of_Z 0) 0).



End MintStats.

Module McMintStats.

Import McMintState.

Definition getMintsByBasket (basketId : string) (mints : list McMintRecord) : list McMintRecord :=
  List.filter (fun m => String.eqb (mm_basketId m) basketId) mints.

Definition getMintsByChain (chainId : string) (mints : list McMintRecord) : list McMintRecord :=
  List.filter (fun m => String.eqb (mm_chainId m) chainId) mints.

Definition status_is (s : MintStatus) (m : McMintRecord) : bool := MintStatus_eqb (mm_status m) s.

(** [byChain[k].count++] and the running [totalAmount] of an own entry
    [k]; the amount string is re-parsed on each step, which gives back
    the number it was printed from. *)
Definition bump_own (o : JsObject.obj (nat * Js.number)) (k : string) (amount : Js.number)
  : JsObject.obj (nat * Js.number) :=
  map (fun kv => if String.eqb (fst kv) k
                 then (fst kv, (S (fst (snd kv)), Js.add (snd (snd kv)) amount))
                 else kv) o.

(** The body of [completed.forEach] in [getBasketCrossChainStats] for a
    mint whose [byChain[chainId]] is an own entry or a property that
    [Object.prototype] has in every program state: an entry
    [{count: 0, totalAmount: '0'}] is created when [byChain[chainId]] is
    falsy, then updated.  For a chain-id naming a built-in property of
    [Object.prototype] the entry read is that (truthy) inherited value, so
    no own property is created or changed; the update lands on the
    inherited object, which no result of the function reads. *)
Definition by_chain_update (o : JsObject.obj (nat * Js.number)) (mint : McMintRecord)
  : JsObject.obj (nat * Js.number) :=
  let c := mm_chainId mint in
  let o := if negb (JsObject.get_truthy o c) then JsObject.set_new o c (0%nat, Js.of_Z 0) else o in
  bump_own o c (Js.parseFloat (mm_amount mint)).

(** The [TypeError] of [byChain[chainId].count++] when [byChain[chainId]]
    is a string. *)
Inductive StatsError := CountOnString (chainId : string).

(** One step of [completed.forEach], with [polluted]: whether
    [Object.prototype] has gained [count] and [totalAmount] properties.
    [byChain['__proto__']] is [Object.prototype] itself, so a completed
    mint on chain ["__proto__"] runs [Object.prototype.count++] (giving
    NaN) and sets [Object.prototype.totalAmount] to
    [(parseFloat(undefined) + ...).toString()], that is ["NaN"]; these
    stay for the rest of the process.  From then on a chain-id ["count"]
    without an own entry reads the inherited NaN, which is falsy, and gets
    an own entry as usual; a chain-id ["totalAmount"] without an own entry
    reads the inherited string ["NaN"], which is truthy, and
    ["NaN"].count++ throws in the module's strict code. *)
Definition by_chain_step (acc : JsObject.obj (nat * Js.number) * bool) (mint : McMintRecord)
  : Result StatsError (JsObject.obj (nat * Js.number) * bool) :=
  let '(o, polluted) := acc in
  let c := mm_chainId mint in
  if polluted && String.eqb c "totalAmount" && negb (JsObject.has_own o c)
  then Throw (CountOnString c)
  else Ok (by_chain_update o mint, polluted || String.eqb c "__proto__").

(** [completed.forEach(...)]: the first throwing step ends the call. *)
Fixpoint by_chain (acc : JsObject.obj (nat * Js.number) * bool) (l : list McMintRecord)
  : Result StatsError (JsObject.obj (nat * Js.number) * bool) :=
  match l with
  | [] => Ok acc
  | mint :: l' =>
      match by_chain_step acc mint with
      | Ok acc' => by_chain acc' l'
      | Throw e => Throw e
      end
  end.

(** The fields of [getBasketCrossChainStats]; [cs_totalMinted] and the
    amounts of [cs_byChain] are the numbers whose [toString()] is
    returned. *)
Record CrossChainStats := mkCrossChainStats {
  cs_basketId : string;
  cs_totalMints : nat;
  cs_completedMints : nat;
  cs_failedMints : nat;
  cs_pendingMints : nat;
  cs_totalMinted : Js.number;
  cs_chainsActive : nat;
  cs_byChain : JsObject.obj (nat * Js.number)
}.

(** [polluted] is whether an earlier call already added [count] and
    [totalAmount] to [Object.prototype]; the call returns its stats and
    whether they are there after it. *)
Definition getBasketCrossChainStats (polluted : bool) (basketId : string) (all : list McMintRecord)
  : Result StatsError (CrossChainStats * bool) :=
  let mints := getMintsByBasket basketId all in
  let completed := List.filter (status_is Completed) mints in
  match by_chain ([], polluted) completed with
  | Throw e => Throw e
  | Ok (byChain, polluted') =>
      let totalMinted :=
        fold_left (fun sum mint => Js.add sum (Js.parseFloat (mm_amount mint))) completed (Js.of_Z 0) in
      Ok ({| cs_basketId := basketId; cs_totalMints := List.length mints;
             cs_completedMints := List.length completed;
             cs_failedMints := List.length (List.filter (status_is Failed) mints);
             cs_pendingMints := List.length (List.filter (status_is Pending) mints);
             cs_totalMinted := totalMinted;
             cs_chainsActive := List.length (JsObject.keys byChain);
             cs_byChain := byChain |}, polluted')
  end.

End McMintStats.

(* ================================================================= *)
(** * Auxiliary definitions for the statements *)

Module ExpandSpec.

Import Registry.

(** The basket assets whose asset is registered, paired with it. *)
Fixpoint registered (m : gmap string Asset) (l : list BasketAsset) : list (BasketAsset * Asset) :=
  match l with
  | [] => []
  | ba :: l' =>
      match m !! ba_assetId ba with
      | Some a => (ba, a) :: registered m l'
      | None => registered m l'
      end
  end.

(** Whether a basket asset's asset-id is in the asset map. *)
Definition is_registered (m : gmap string Asset) (ba : BasketAsset) : bool :=
  match m !! ba_assetId ba with Some _ => true | None => false end.

Definition entry_amount (total : Js.number) (ba : BasketAsset) : Js.number :=
  Js.div (Js.mul total (ba_weight ba)) (Js.of_Z 100).

(** Registry invariant: every stored basket refers to registered assets
    only. *)
Definition baskets_registered (r : AssetRegistry) : Prop :=
  forall bid b, baskets r !! bid = Some b -> first_missing (assets r) (basket_assets b) = None.

End ExpandSpec.

(** Concrete registries used by the examples and counterexamples. *)
Module Examples.

Import Registry.

Definition asset_usdc : Asset :=
  mkAsset "usdc" Monetary "USD Coin" "USDC" 6
    "0xA0b86991c6218b36c1d19D4a2e9Eb0cE3606eB48" None "" "".

Definition asset_gold : Asset :=
  mkAsset "gold" PhysicalBacked "Gold" "XAU" 18
    "0x68749665FF8D2d112Fa859AA293F07A622782F38" None "" "".

Definition basket_6040 : Basket :=
  mkBasket "mixed" "Mixed Basket" "MIXB" None
    [mkBasketAsset "usdc" (Js.of_Z 60) "60%"; mkBasketAsset "gold" (Js.of_Z 40) "40%"]
    None Active "" "".

Definition setup_ops : list RegistryOp :=
  [OpRegisterAsset "t1" asset_usdc; OpRegisterAsset "t1" asset_gold;
   OpCreateBasket "t2" basket_6040].

(** The registry after registering both assets and creating the basket. *)
Definition registry_6040 : AssetRegistry := run_ops setup_ops empty_registry.

(** The basket as [createBasket] stored it. *)
Definition stored_6040 : Basket :=
  mkBasket "mixed" "Mixed Basket" "MIXB" None (basket_assets basket_6040) None Active "t2" "t2".

(** A registry loaded from a baskets file that names an asset the assets
    file does not contain. *)
Definition registry_missing : AssetRegistry :=
  mkRegistry {[ "usdc" := asset_usdc ]} {[ "mixed" := basket_6040 ]}.

End Examples.

(** Exact (real-number) sums of binary64 values, as dyadic rationals. *)
Module WeightSpec.

Definition dyadic_add (x y : Z * Z) : Z * Z :=
  let e := Z.min (snd x) (snd y) in
  (fst x * 2 ^ (snd x - e) + fst y * 2 ^ (snd y - e), e).

Fixpoint exact_sum (l : list Js.number) : option (Z * Z) :=
  match l with
  | [] => Some (0, 0)
  | x :: l' =>
      match Js.dyadic x, exact_sum l' with
      | Some d, Some s => Some (dyadic_add d s)
      | _, _ => None
      end
  end.

(** The exact sum of the (finite) values of [l] is the integer [k]. *)
Definition exact_sum_is (l : list Js.number) (k : Z) : bool :=
  match exact_sum l with
  | Some (n, e) => if Z.leb 0 e then Z.eqb (n * 2 ^ e) k else Z.eqb n (k * 2 ^ (- e))
  | None => false
  end.

End WeightSpec.

Module McExamples.

Import Registry MultiChain.

Definition sepolia_usdc : ChainAsset :=
  mkChainAsset "ethereum-sepolia" "0x1c7D4B196Cb0C7B01d743Fbc6116a902379C7238" 6 None.

(** A multi-chain basket whose supported-chain list repeats its only
    chain. *)
Definition basket_dup_chain : MultiChainBasket :=
  mkMultiChainBasket "multi" "Multi Basket" "MULTI" None
    [mkChainBasketAsset "usdc-mc" (Js.of_Z 100) "100%" None]
    ["ethereum-sepolia"; "ethereum-sepolia"] (Some "ethereum-sepolia") Active "" "".

Definition dup_chain_ops : list McOp :=
  [OpCreateMcBasket "t1" basket_dup_chain;
   OpRemoveBasketChain "t2" "multi" "ethereum-sepolia"].

(** A multi-chain asset whose default chain-id names a property every
    object inherits. *)
Definition asset_proto_default : MultiChainAsset :=
  mkMultiChainAsset "usdc-mc" Monetary "USD Coin" "USDC"
    [("ethereum-sepolia", sepolia_usdc)] (Some "constructor") None "" "".

Definition proto_default_ops : list McOp := [OpRegisterMcAsset "t1" asset_proto_default].

(** Single-chain basket with weights 100 and 1e-15 (as JSON numbers). *)
Definition basket_tiny_weight : Basket :=
  mkBasket "tiny" "Tiny" "TINY" None
    [mkBasketAsset "usdc" (Js.of_Z 100) "100%"; mkBasketAsset "gold" (Js.parseFloat "1e-15") "0%"]
    None Active "" "".

(** Single-chain basket with weights 50 and 30. *)
Definition basket_80 : Basket :=
  mkBasket "eighty" "Eighty" "EIGHTY" None
    [mkBasketAsset "usdc" (Js.of_Z 50) "50%"; mkBasketAsset "gold" (Js.of_Z 30) "30%"]
    None Active "" "".

End McExamples.

(** Consistency of a mint record's completion timestamp with its status. *)
Module MintSpec.

Definition has_value {A} (o : option A) : bool := match o with Some _ => true | None => false end.

(** A completed or failed record has a completion timestamp and a pending
    one has none; a record whose status is [undefined] may have either. *)
Definition status_timestamp_ok (s : MintStatus) (completedAt : option string) : bool :=
  match s with
  | Completed | Failed => has_value completedAt
  | Pending => negb (has_value completedAt)
  | StatusUndefined => true
  end.

Definition completion_consistent (r : MintState.MintRecord) : bool :=
  status_timestamp_ok (MintState.mr_status r) (MintState.mr_completedAt r).

Definition mc_completion_consistent (r : McMintState.McMintRecord) : bool :=
  status_timestamp_ok (McMintState.mm_status r) (McMintState.mm_completedAt r).

End MintSpec.

Module MintExamples.

Import Registry MintState CREWorkflow Examples.

Definition state_6040 : State := mkState registry_6040 ∅.

(** A request for more than the reserve balance reported by the mock. *)
Definition request_over : MintRequest :=
  mkMintRequest "mixed" "0x00000000000000000000000000000000000000b1" "2000000000" None None.

(** A record created, completed, then updated to failed. *)
Definition lifecycle_ops : list MintOp :=
  [OpCreate "t1" "mixed" "TX" "0x00000000000000000000000000000000000000b1" "1000" [];
   OpUpdate "t2" (mint_id "TX") (mkMintUpdate (Some (Some TCompleted)) None None);
   OpUpdate "t3" (mint_id "TX") (mkMintUpdate (Some (Some TFailed)) None (Some (Some "late failure")))].

(** A record created, completed, then updated with [status: undefined]. *)
Definition undefined_status_ops : list MintOp :=
  firstn 2 lifecycle_ops ++
  [OpUpdate "t3" (mint_id "TX") (mkMintUpdate (Some None) None None)].

(** The map after the first two calls: the record is completed. *)
Definition completed_map : gmap string MintRecord := run_mint_ops (firstn 2 lifecycle_ops) ∅.

End MintExamples.

Module WfExamples.

Import Registry Workflow.

Definition gold_contract : string := "0x68749665FF8D2d112Fa859AA293F07A622782F38".

Definition config_default : Config :=
  mkConfig [("ethereum-sepolia", mkChainConfig "https://rpc.sepolia.org" "0x00000000000000000000000000000000000000c1")]
    None.

(** An asset whose metadata records 18 decimals. *)
Definition wf_gold : WfAsset :=
  mkWfAsset "gold" "XAU" PhysicalBacked "5" gold_contract "ethereum-sepolia"
    (Some [("decimals", MNum (Js.of_Z 18))]).

Definition payload_gold : Payload :=
  mkPayload "TX" "0x00000000000000000000000000000000000000b1" "5" [wf_gold]
    (mkWfChain "ethereum-sepolia" "Sepolia" 11155111 "https://rpc.sepolia.org").

Definition stub_getAddress (s : string) : option string := Some s.

Definition stub_submit (contract beneficiary : string) (amount : Z) : option string := Some "0xhash".

(** The payload with the metadata of every asset replaced by [f]. *)
Definition set_metadata (f : option Metadata -> option Metadata) (p : Payload) : Payload :=
  {| pl_transactionId := pl_transactionId p; pl_beneficiary := pl_beneficiary p;
     pl_amount := pl_amount p;
     pl_assets := map (fun a => {| wa_assetId := wa_assetId a; wa_symbol := wa_symbol a;
                                   wa_type := wa_type a; wa_amount := wa_amount a;
                                   wa_contractAddress := wa_contractAddress a;
                                   wa_chainId := wa_chainId a;
                                   wa_metadata := f (wa_metadata a) |}) (pl_assets p);
     pl_chain := pl_chain p |}.

End WfExamples.

(** The number of minted-asset entries with a given asset-id. *)
Module StatsSpec.

Definition matches (assetId : string) (l : list MintState.MintedAsset) : nat :=
  List.length (List.filter (fun a => String.eqb (MintState.ma_assetId a) assetId) l).

(** A chain-id that does not name a property of [Object.prototype]. *)
Definition not_proto (c : string) : bool := negb (existsb (String.eqb c) JsObject.prototype_props).

(** A failed mint that carried gold and a completed mint of USDC only. *)
Definition failed_gold_completed_usdc : list MintState.MintRecord :=
  [MintState.mkMintRecord "mint_1" "basket-6040" "tx-1" "0xabc" "100"
     [MintState.mkMintedAsset "gold" "XAU" Registry.PhysicalBacked (Js.of_Z 40) "0xgold" None]
     Failed "t1" (Some "t2") (Some "reverted");
   MintState.mkMintRecord "mint_2" "basket-6040" "tx-2" "0xabc" "100"
     [MintState.mkMintedAsset "usdc" "USDC" Registry.Monetary (Js.of_Z 60) "0xusdc" (Some "0x01")]
     Completed "t3" (Some "t4") None].

End StatsSpec.

(** Well-formed inputs of the multi-chain registries. *)
Module McSpec.

Import MultiChain.

(** No string occurs twice. *)
Fixpoint distinct (l : list string) : bool :=
  match l with
  | [] => true
  | x :: r => negb (existsb (String.eqb x) r) && distinct r
  end.

(** A basket is created with a supported-chain list without repeats. *)
Definition basket_input_ok (op : McOp) : bool :=
  match op with
  | OpCreateMcBasket _ b => distinct (mcb_supportedChains b)
  | _ => true
  end.

(** An asset is registered with distinct chain keys and a default chain
    that is one of its own keys. *)
Definition asset_input_ok (op : McOp) : bool :=
  match op with
  | OpRegisterMcAsset _ a =>
      distinct (map fst (mca_chains a)) &&
      match mca_defaultChain a with
      | Some d => JsObject.has_own (mca_chains a) d
      | None => false
      end
  | _ => true
  end.

(** The invariants kept for such inputs. *)
Definition basket_inv (b : MultiChainBasket) : Prop :=
  List.NoDup (mcb_supportedChains b) /\ basket_chains_ok b.

Definition asset_inv (a : MultiChainAsset) : Prop :=
  List.NoDup (map fst (mca_chains a)) /\
  exists d, mca_defaultChain a = Some d /\ In d (map fst (mca_chains a)).

End McSpec.

(** A one-chain multi-chain basket and asset, and a second chain. *)
Module McRoundExamples.

Import Registry MultiChain McExamples.

Definition basket_solo : MultiChainBasket :=
  mkMultiChainBasket "solo" "Solo Basket" "SOLO" None
    [mkChainBasketAsset "usdc-mc" (Js.of_Z 100) "100%" None]
    ["ethereum-sepolia"] (Some "ethereum-sepolia") Active "" "".

Definition baskets_solo : gmap string MultiChainBasket := <["solo" := basket_solo]> ∅.

Definition asset_solo : MultiChainAsset :=
  mkMultiChainAsset "usdc-mc" Monetary "USD Coin" "USDC"
    [("ethereum-sepolia", sepolia_usdc)] (Some "ethereum-sepolia") None "" "".

Definition assets_solo : gmap string MultiChainAsset := <["usdc-mc" := asset_solo]> ∅.

Definition base_usdc : ChainAsset :=
  mkChainAsset "base-sepolia" "0x036CbD53842c5426634e7929541eC2318f3dCF7e" 6 None.

(** Create, move to a second chain, drop the first one. *)
Definition solo_ops : list McOp :=
  [OpRegisterMcAsset "t1" asset_solo;
   OpAddAssetChain "t2" "usdc-mc" "base-sepolia" base_usdc;
   OpRemoveAssetChain "t3" "usdc-mc" "ethereum-sepolia";
   OpCreateMcBasket "t1" basket_solo;
   OpAddBasketChain "t2" "solo" "base-sepolia";
   OpRemoveBasketChain "t3" "solo" "ethereum-sepolia"].

End McRoundExamples.

(** A request restricted to the physically backed assets of the mixed
    basket. *)
Module TriggerExamples.

Import Registry CREWorkflow.

Definition request_gold : MintRequest :=
  mkMintRequest "mixed" "0x00000000000000000000000000000000000000b1" "1000" (Some PhysicalBacked) None.

End TriggerExamples.

(** Workflow payloads with two assets, and an asset with a fractional
    amount. *)
Module WfMoreExamples.

Import Registry Workflow WfExamples.

Definition usdc_contract : string := "0xA0b86991c6218b36c1d19D4a2e9Eb0cE3606eB48".

Definition wf_usdc : WfAsset :=
  mkWfAsset "usdc" "USDC" Monetary "100" usdc_contract "ethereum-sepolia" None.

Definition wf_half : WfAsset :=
  mkWfAsset "usdc" "USDC" Monetary "1.5" usdc_contract "ethereum-sepolia" None.

Definition payload_two : Payload :=
  mkPayload "TX" "0x00000000000000000000000000000000000000b1" "105" [wf_gold; wf_usdc]
    (mkWfChain "ethereum-sepolia" "Sepolia" 11155111 "https://rpc.sepolia.org").

End WfMoreExamples.

(** Per-chain tallies of multi-chain mint records. *)
Module CrossChainSpec.

Import McMintState.

Definition on_chain (c : string) (l : list McMintRecord) : list McMintRecord :=
  List.filter (fun m => String.eqb (mm_chainId m) c) l.

(** Running [parseFloat] sum of the amounts on chain [c], from [t]. *)
Definition chain_total (c : string) (l : list McMintRecord) (t : Js.number) : Js.number :=
  fold_left (fun s m => Js.add s (Js.parseFloat (mm_amount m))) (on_chain c l) t.

(** Completed mints of one basket on two chains, and a pending one. *)
Definition mc_mints_two_chains : list McMintRecord :=
  [mkMcMintRecord "mint-sepolia-TX1" "multi" "ethereum-sepolia" "Sepolia" "TX1" "0xabc" "100" []
     Completed "t1" (Some "t2") None;
   mkMcMintRecord "mint-base-TX2" "multi" "base-sepolia" "Base Sepolia" "TX2" "0xabc" "50" []
     Completed "t3" (Some "t4") None;
   mkMcMintRecord "mint-sepolia-TX3" "multi" "ethereum-sepolia" "Sepolia" "TX3" "0xabc" "25" []
     Completed "t5" (Some "t6") None;
   mkMcMintRecord "mint-sepolia-TX4" "multi" "ethereum-sepolia" "Sepolia" "TX4" "0xabc" "7" []
     Pending "t7" None None].

End CrossChainSpec.

(* ================================================================= *)
(** * Properties *)

(* ----------------------------------------------------------------- *)
(** ** Expansion of a basket *)

Module ExpandFacts.

Import Registry ExpandSpec.

Lemma expand_entries_registered (m : gmap string Asset) total (l : list BasketAsset) :
  expand_entries m total l = map (fun p => (snd p, entry_amount total (fst p))) (registered m l).
Proof.
  induction l as [|ba l IH]; simpl; [done|].
  destruct (m !! ba_assetId ba); simpl; rewrite IH; done.
Qed.

Lemma registered_length_le (m : gmap string Asset) (l : list BasketAsset) :
  (List.length (registered m l) <= List.length l)%nat.
Proof.
  induction l as [|ba l IH]; simpl; [lia|].
  destruct (m !! ba_assetId ba); simpl; lia.
Qed.

Lemma registered_missing_lt (m : gmap string Asset) (l : list BasketAsset) ba :
  In ba l -> m !! ba_assetId ba = None ->
  (List.length (registered m l) < List.length l)%nat.
Proof.
  induction l as [|ba' l IH]; simpl; [done|].
  intros [<-|Hin] Hm.
  - rewrite Hm. pose proof (registered_length_le m l). lia.
  - destruct (m !! ba_assetId ba'); simpl; specialize (IH Hin Hm); lia.
Qed.

Lemma first_missing_none_registered (m : gmap string Asset) (l : list BasketAsset) :
  first_missing m l = None -> List.length (registered m l) = List.length l.
Proof.
  induction l as [|ba l IH]; simpl; [done|].
  destruct (m !! ba_assetId ba); [|done].
  intros H. simpl. rewrite IH; done.
Qed.

Lemma first_missing_none_insert (m : gmap string Asset) k a (l : list BasketAsset) :
  m !! k = None -> first_missing m l = None -> first_missing (<[k := a]> m) l = None.
Proof.
  intros Hk. induction l as [|ba l IH]; simpl; [done|].
  destruct (m !! ba_assetId ba) eqn:E; [|done].
  destruct (decide (k = ba_assetId ba)) as [->|Hne].
  - rewrite lookup_insert_eq. auto.
  - rewrite lookup_insert_ne by done. rewrite E. auto.
Qed.

Lemma expand_entries_assets (m : gmap string Asset) total (l : list BasketAsset) :
  Forall2 (fun ba e => m !! ba_assetId ba = Some (fst e))
          (List.filter (is_registered m) l) (expand_entries m total l).
Proof.
  induction l as [|ba l IH]; simpl; [constructor|].
  unfold is_registered at 1. destruct (m !! ba_assetId ba) eqn:E; simpl; [|exact IH].
  constructor; [exact E|exact IH].
Qed.

Lemma filter_registered_full (m : gmap string Asset) (l : list BasketAsset) :
  first_missing m l = None -> List.filter (is_registered m) l = l.
Proof.
  induction l as [|ba l IH]; simpl; [done|].
  unfold is_registered at 1. destruct (m !! ba_assetId ba); [|done].
  intros H. rewrite IH; done.
Qed.

Lemma baskets_registered_empty : baskets_registered empty_registry.
Proof. intros bid b H. simpl in H. rewrite lookup_empty in H. done. Qed.

Lemma baskets_registered_step (r : AssetRegistry) op :
  baskets_registered r -> baskets_registered (apply_op r op).
Proof.
  intros Hr. destruct op as [now a|now b]; simpl.
  - unfold registerAsset. destruct (assets r !! asset_id a) eqn:E; [done|].
    intros bid b Hb. simpl in *. apply first_missing_none_insert; [done|]. eauto.
  - unfold createBasket.
    destruct (baskets r !! basket_id b) eqn:E; [done|].
    destruct (first_missing (assets r) (basket_assets b)) eqn:F; [done|].
    destruct (negb _); [done|].
    intros bid b' Hb. simpl in *.
    destruct (decide (basket_id b = bid)) as [<-|Hne].
    + rewrite lookup_insert_eq in Hb. injection Hb as <-. simpl. done.
    + rewrite lookup_insert_ne in Hb by done. eauto.
Qed.

Lemma baskets_registered_run ops (r : AssetRegistry) :
  baskets_registered r -> baskets_registered (run_ops ops r).
Proof.
  revert r. induction ops as [|op ops IH]; simpl; intros r Hr; [done|].
  apply IH, baskets_registered_step, Hr.
Qed.

End ExpandFacts.

Module ExpandClaims.

Import Registry ExpandSpec ExpandFacts Examples.

Lemma registered_lookup (m : gmap string Asset) (l : list BasketAsset) ba a :
  In (ba, a) (registered m l) -> m !! ba_assetId ba = Some a.
Proof.
  induction l as [|ba' l IH]; simpl; [done|].
  destruct (m !! ba_assetId ba') eqn:E; simpl; [|auto].
  intros [H|H]; [injection H as -> ->; done|auto].
Qed.

(** C1 (counterexample): a basket with two entries, one of whose assets
    is not in the asset map, expands to a single entry. *)
Lemma C1_fewer_entries_than_basket :
  ~ (forall out, expandBasket "mixed" "1000" registry_missing = Ok out ->
       List.length out = List.length (basket_assets basket_6040)).
Proof.
  intros H.
  assert (E : expandBasket "mixed" "1000" registry_missing =
              Ok [(asset_usdc, Js.of_Z 600)]) by (vm_compute; reflexivity).
  specialize (H _ E). vm_compute in H. discriminate.
Qed.

(** C1 (amended): [expandBasket] returns one entry per basket asset whose
    asset is registered, in the basket's order, each holding the asset
    registered under that entry's asset-id; in every registry built by
    [registerAsset]/[createBasket] calls this is one entry per basket
    asset, in order; and a basket of two registered assets weighted 60
    and 40 expands ["1000"] to the amounts ["600"] and ["400"]. *)
Theorem C1_expand_one_entry_per_registered_asset :
  (forall (r : AssetRegistry) bid b total,
     baskets r !! bid = Some b ->
     exists out, expandBasket bid total r = Ok out /\
       List.length out = List.length (registered (assets r) (basket_assets b)) /\
       Forall2 (fun ba e => assets r !! ba_assetId ba = Some (fst e))
               (List.filter (is_registered (assets r)) (basket_assets b)) out) /\
  (forall ops bid b total,
     getBasket bid (run_ops ops empty_registry) = Some b ->
     exists out, expandBasket bid total (run_ops ops empty_registry) = Ok out /\
       List.length out = List.length (basket_assets b) /\
       Forall2 (fun ba e => assets (run_ops ops empty_registry) !! ba_assetId ba = Some (fst e))
               (basket_assets b) out) /\
  (forall (r : AssetRegistry) bid b x y ax ay,
     baskets r !! bid = Some b -> basket_assets b = [x; y] ->
     ba_weight x = Js.of_Z 60 -> ba_weight y = Js.of_Z 40 ->
     assets r !! ba_assetId x = Some ax -> assets r !! ba_assetId y = Some ay ->
     exists out, expandBasket bid "1000" r = Ok out /\ map fst out = [ax; ay] /\
       map (fun e => Js.toString (snd e)) out = [Some "600"; Some "400"]%string).
Proof.
  split; [|split].
  - intros r bid b total Hb. unfold expandBasket. rewrite Hb.
    eexists; split; [reflexivity|]. split.
    + rewrite expand_entries_registered, length_map. done.
    + apply expand_entries_assets.
  - intros ops bid b total Hb. unfold getBasket in Hb. unfold expandBasket. rewrite Hb.
    eexists; split; [reflexivity|].
    pose proof (baskets_registered_run ops empty_registry baskets_registered_empty bid b Hb) as Hf.
    split.
    + rewrite expand_entries_registered, length_map.
      apply first_missing_none_registered, Hf.
    + rewrite <- (filter_registered_full _ _ Hf) at 1. apply expand_entries_assets.
  - intros r bid b x y ax ay Hb Hl Hx Hy Hax Hay.
    unfold expandBasket. rewrite Hb, Hl. simpl. rewrite Hax, Hay, Hx, Hy.
    eexists; split; [reflexivity|]. split; [done|]. vm_compute. reflexivity.
Qed.

Lemma C1_expand_one_entry_per_registered_asset_witness :
  getBasket "mixed" registry_6040 = Some stored_6040 /\
  exists out, expandBasket "mixed" "1000" registry_6040 = Ok out /\
    List.length out = List.length (basket_assets stored_6040) /\
    Forall2 (fun ba e => assets registry_6040 !! ba_assetId ba = Some (fst e))
            (basket_assets stored_6040) out.
Proof.
  split; [vm_compute; reflexivity|].
  apply (proj1 (proj2 C1_expand_one_entry_per_registered_asset) setup_ops "mixed" stored_6040 "1000").
  vm_compute. reflexivity.
Defined.

(** C2 (counterexample): the amounts are binary64 results, not the exact
    decimal values: [9007199254740993 * 60 / 100 = 5404319552844595.8]
    but the first amount prints as [5404319552844595], and the second
    differs from [3602879701896397.2]. *)
Lemma C2_amounts_not_exact :
  match expandBasket "mixed" "9007199254740993" registry_6040 with
  | Ok [(_, x); (_, y)] =>
      Js.value_is x (9007199254740993 * 60) 100 = false /\
      Js.toString x = Some "5404319552844595"%string /\
      Js.value_is y (9007199254740993 * 40) 100 = false
  | _ => False
  end.
Proof. vm_compute. repeat split. Qed.

(** C2 (amended): each amount is computed in binary64 as
    [(parseFloat(totalAmount) * weight) / 100], one per registered basket
    asset, in order. *)
Theorem C2_expand_amounts_binary64 (r : AssetRegistry) (bid : string) (b : Basket) (total : string) :
  baskets r !! bid = Some b ->
  expandBasket bid total r =
    Ok (map (fun p => (snd p, Js.div (Js.mul (Js.parseFloat total) (ba_weight (fst p))) (Js.of_Z 100)))
            (registered (assets r) (basket_assets b))).
Proof.
  intros Hb. unfold expandBasket. rewrite Hb, expand_entries_registered. done.
Qed.

Lemma C2_expand_amounts_binary64_witness :
  baskets registry_6040 !! "mixed" = Some stored_6040 /\
  expandBasket "mixed" "1000" registry_6040 =
    Ok (map (fun p => (snd p, Js.div (Js.mul (Js.parseFloat "1000") (ba_weight (fst p))) (Js.of_Z 100)))
            (registered (assets registry_6040) (basket_assets stored_6040))).
Proof.
  split; [vm_compute; reflexivity|].
  apply C2_expand_amounts_binary64. vm_compute. reflexivity.
Defined.

(** C10: an entry whose asset is not registered is skipped without an
    error: no returned entry carries its asset-id (assets are stored under
    their id) and the result is shorter than the basket's entry list. *)
Theorem C10_unregistered_asset_skipped (r : AssetRegistry) bid b ba total :
  map_Forall (fun k a => asset_id a = k) (assets r) ->
  baskets r !! bid = Some b -> In ba (basket_assets b) -> assets r !! ba_assetId ba = None ->
  exists out, expandBasket bid total r = Ok out /\
    Forall (fun e => asset_id (fst e) <> ba_assetId ba) out /\
    (List.length out < List.length (basket_assets b))%nat.
Proof.
  intros Hkeys Hb Hin Hnone. unfold expandBasket. rewrite Hb.
  eexists; split; [reflexivity|]. rewrite expand_entries_registered. split.
  - apply List.Forall_forall. intros e He. apply in_map_iff in He as [[ba' a] [<- Hp]].
    simpl. apply registered_lookup in Hp. pose proof (Hkeys _ _ Hp) as Hk. simpl in Hk.
    rewrite Hk. intros Heq. rewrite Heq in Hp. congruence.
  - rewrite length_map. eapply registered_missing_lt; eauto.
Qed.

Lemma C10_unregistered_asset_skipped_witness :
  exists out, expandBasket "mixed" "1000" registry_missing = Ok out /\
    Forall (fun e => asset_id (fst e) <> "gold"%string) out /\
    (List.length out < List.length (basket_assets basket_6040))%nat.
Proof.
  apply (C10_unregistered_asset_skipped registry_missing "mixed" basket_6040
           (mkBasketAsset "gold" (Js.of_Z 40) "40%") "1000").
  - intros k a Hk. unfold registry_missing in Hk. simpl in Hk.
    apply lookup_singleton_Some in Hk as [<- <-]. reflexivity.
  - vm_compute. reflexivity.
  - simpl. auto.
  - vm_compute. reflexivity.
Defined.

End ExpandClaims.

(* ----------------------------------------------------------------- *)
(** ** Chain sets of multi-chain assets and baskets *)

Module ChainClaims.

Import Registry MultiChain McExamples.

(** C3 (code defect): the chain-set invariant is lost in two ways.
    Removing a chain from a basket whose supported-chain list repeats
    it passes the only-chain guard (the list has length 2) and leaves
    an empty list with an [undefined] default; and an asset whose default
    chain-id is an inherited property name such as ["constructor"] passes
    the default-chain check of registration although that chain is not
    in its chain map. *)
Theorem C3_chain_set_invariant_broken :
  match mc_baskets (run_mc_ops dup_chain_ops empty_mc) !! "multi" with
  | Some b => mcb_supportedChains b = [] /\ mcb_defaultChain b = None /\ ~ basket_chains_ok b
  | None => False
  end /\
  match mc_assets (run_mc_ops proto_default_ops empty_mc) !! "usdc-mc" with
  | Some a => JsObject.keys (mca_chains a) = ["ethereum-sepolia"]%string /\
              mca_defaultChain a = Some "constructor"%string /\ ~ asset_chains_ok a
  | None => False
  end.
Proof.
  split.
  - vm_compute. split; [done|]. split; [done|]. intros [H _]. done.
  - vm_compute. split; [done|]. split; [done|].
    intros [_ [d [Hd Hin]]]. injection Hd as <-. simpl in Hin.
    destruct Hin as [H|[]]. discriminate.
Qed.

End ChainClaims.

(* ----------------------------------------------------------------- *)
(** ** Weight validation of basket creation *)

Module WeightClaims.

Import Registry MultiChain WeightSpec Examples McExamples.

(** C4 (counterexample): weights 100 and 1e-15 are accepted (their
    binary64 sum is 100) and stored, although their exact sum is not
    100. *)
Lemma C4_accepted_weights_not_exactly_100 :
  match Registry.createBasket "t3" basket_tiny_weight registry_6040 with
  | Ok (r', b) =>
      baskets r' !! "tiny"%string = Some b /\
      exact_sum_is (map ba_weight (basket_assets b)) 100 = false
  | Throw _ => False
  end.
Proof. vm_compute. split; reflexivity. Qed.

Lemma createBasket_ok (now : string) (b : Basket) r r' b' :
  Registry.createBasket now b r = Ok (r', b') ->
  Js.eqb (Registry.totalWeight (basket_assets b)) (Js.of_Z 100) = true /\
  baskets r' !! basket_id b = Some b' /\ basket_assets b' = basket_assets b.
Proof.
  unfold Registry.createBasket.
  destruct (baskets r !! basket_id b); [discriminate|].
  destruct (first_missing _ _); [discriminate|].
  destruct (Js.eqb _ _) eqn:E; simpl; [|discriminate].
  intros H. injection H as <- <-. simpl. rewrite lookup_insert_eq. auto.
Qed.

Lemma mc_createBasket_ok (now : string) (b : MultiChainBasket) m m' b' :
  MultiChain.createBasket now b m = Ok (m', b') ->
  Js.eqb (MultiChain.totalWeight (mcb_assets b)) (Js.of_Z 100) = true /\
  m' !! mcb_id b = Some b' /\ mcb_assets b' = mcb_assets b.
Proof.
  unfold MultiChain.createBasket.
  destruct (m !! mcb_id b); [discriminate|].
  destruct (Nat.eqb _ 0); [discriminate|].
  destruct (negb (includes _ _)); [discriminate|].
  destruct (Js.eqb _ _) eqn:E; simpl; [|discriminate].
  intros H. injection H as <- <-. simpl. rewrite lookup_insert_eq. auto.
Qed.

Definition weights_ok (bs : gmap string Basket) : Prop :=
  map_Forall (fun _ b => Js.eqb (Registry.totalWeight (basket_assets b)) (Js.of_Z 100) = true) bs.

Definition mc_weights_ok (bs : gmap string MultiChainBasket) : Prop :=
  map_Forall (fun _ b => Js.eqb (MultiChain.totalWeight (mcb_assets b)) (Js.of_Z 100) = true) bs.

Lemma weights_ok_run ops (r : AssetRegistry) :
  weights_ok (baskets r) -> weights_ok (baskets (run_ops ops r)).
Proof.
  revert r. induction ops as [|op ops IH]; intros r Hr; simpl; [done|].
  apply IH. destruct op as [now a|now b]; simpl.
  - unfold registerAsset. destruct (assets r !! asset_id a); done.
  - destruct (Registry.createBasket now b r) as [[r' b']|] eqn:E; [|done].
    pose proof (createBasket_ok _ _ _ _ _ E) as (Hw & Hl & Ha).
    revert Hl Hw Ha E. unfold Registry.createBasket.
    destruct (baskets r !! basket_id b); [discriminate|].
    destruct (first_missing _ _); [discriminate|].
    destruct (negb _); [discriminate|].
    intros _ Hw Ha E. injection E as <- <-. simpl.
    apply map_Forall_insert_2; [simpl; done|done].
Qed.

Lemma mc_weights_ok_step (s : McState) op :
  mc_weights_ok (mc_baskets s) -> mc_weights_ok (mc_baskets (apply_mc_op s op)).
Proof.
  intros Hs. destruct op as [now a|now aid c ca|now aid c|now b|now bid c|now bid c]; simpl; try done.
  - destruct (MultiChain.createBasket now b (mc_baskets s)) as [[m' b']|] eqn:E; simpl; [|done].
    revert E. unfold MultiChain.createBasket.
    destruct (mc_baskets s !! mcb_id b); [discriminate|].
    destruct (Nat.eqb _ 0); [discriminate|].
    destruct (negb (includes _ _)); [discriminate|].
    destruct (Js.eqb _ _) eqn:Hw; simpl; [|discriminate].
    intros E. injection E as <- <-. apply map_Forall_insert_2; [simpl; done|done].
  - unfold addChainToBasket.
    destruct (mc_baskets s !! bid) as [b|] eqn:Hb; simpl; [|done].
    destruct (includes _ _); simpl; [done|].
    apply map_Forall_insert_2; [|done]. simpl. apply (Hs _ _ Hb).
  - unfold removeChainFromBasket.
    destruct (mc_baskets s !! bid) as [b|] eqn:Hb; simpl; [|done].
    destruct (negb (includes _ _)); simpl; [done|].
    destruct (Nat.eqb _ 1); simpl; [done|].
    apply map_Forall_insert_2; [|done]. simpl. apply (Hs _ _ Hb).
Qed.

Lemma mc_weights_ok_run ops (s : McState) :
  mc_weights_ok (mc_baskets s) -> mc_weights_ok (mc_baskets (run_mc_ops ops s)).
Proof.
  revert s. induction ops as [|op ops IH]; intros s Hs; simpl; [done|].
  apply IH, mc_weights_ok_step, Hs.
Qed.

(** C4 (amended), for both basket registries: creation succeeds only if
    the binary64 sum of the weights (a left-to-right [reduce] from 0)
    equals 100, and stores the basket with those weights; every basket in
    a registry built by the registry's calls has that sum equal to 100;
    when the id is new and the earlier checks pass (single-chain: every
    asset registered; multi-chain: a non-empty supported-chain list that
    includes the default), any other sum makes creation throw the weight
    error carrying the computed sum. *)
Theorem C4_basket_weights_sum_to_100 :
  (forall now (b : Basket) r r' b',
     Registry.createBasket now b r = Ok (r', b') ->
     Js.eqb (Registry.totalWeight (basket_assets b')) (Js.of_Z 100) = true /\
     baskets r' !! basket_id b = Some b') /\
  (forall now (b : Basket) r,
     baskets r !! basket_id b = None -> first_missing (assets r) (basket_assets b) = None ->
     Js.eqb (Registry.totalWeight (basket_assets b)) (Js.of_Z 100) = false ->
     Registry.createBasket now b r = Throw (InvalidWeights (Registry.totalWeight (basket_assets b)))) /\
  (forall ops bid (b : Basket),
     baskets (run_ops ops empty_registry) !! bid = Some b ->
     Js.eqb (Registry.totalWeight (basket_assets b)) (Js.of_Z 100) = true) /\
  (forall now (b : MultiChainBasket) m m' b',
     MultiChain.createBasket now b m = Ok (m', b') ->
     Js.eqb (MultiChain.totalWeight (mcb_assets b')) (Js.of_Z 100) = true /\
     m' !! mcb_id b = Some b') /\
  (forall now (b : MultiChainBasket) m,
     m !! mcb_id b = None -> mcb_supportedChains b <> [] ->
     includes (mcb_supportedChains b) (mcb_defaultChain b) = true ->
     Js.eqb (MultiChain.totalWeight (mcb_assets b)) (Js.of_Z 100) = false ->
     MultiChain.createBasket now b m = Throw (McInvalidWeights (MultiChain.totalWeight (mcb_assets b)))) /\
  (forall ops bid (b : MultiChainBasket),
     mc_baskets (run_mc_ops ops empty_mc) !! bid = Some b ->
     Js.eqb (MultiChain.totalWeight (mcb_assets b)) (Js.of_Z 100) = true).
Proof.
  split; [|split; [|split; [|split; [|split]]]].
  - intros now b r r' b' E. pose proof (createBasket_ok _ _ _ _ _ E) as (Hw & Hl & Ha).
    rewrite Ha. auto.
  - intros now b r Hid Hm Hw. unfold Registry.createBasket. rewrite Hid, Hm, Hw. done.
  - intros ops bid b Hb.
    refine (weights_ok_run ops empty_registry _ bid b Hb).
    apply map_Forall_empty.
  - intros now b m m' b' E. pose proof (mc_createBasket_ok _ _ _ _ _ E) as (Hw & Hl & Ha).
    rewrite Ha. auto.
  - intros now b m Hid Hne Hinc Hw. unfold MultiChain.createBasket. rewrite Hid, Hinc, Hw.
    destruct (mcb_supportedChains b) eqn:Hc; [done|]. simpl. done.
  - intros ops bid b Hb.
    refine (mc_weights_ok_run ops empty_mc _ bid b Hb).
    apply map_Forall_empty.
Qed.

Lemma C4_basket_weights_sum_to_100_witness :
  baskets registry_6040 !! "eighty"%string = None /\
  first_missing (assets registry_6040) (basket_assets basket_80) = None /\
  Js.eqb (Registry.totalWeight (basket_assets basket_80)) (Js.of_Z 100) = false /\
  Registry.createBasket "t3" basket_80 registry_6040 =
    Throw (InvalidWeights (Registry.totalWeight (basket_assets basket_80))).
Proof.
  assert (H1 : baskets registry_6040 !! "eighty"%string = None) by (vm_compute; reflexivity).
  assert (H2 : first_missing (assets registry_6040) (basket_assets basket_80) = None)
    by (vm_compute; reflexivity).
  assert (H3 : Js.eqb (Registry.totalWeight (basket_assets basket_80)) (Js.of_Z 100) = false)
    by (vm_compute; reflexivity).
  split; [exact H1|]. split; [exact H2|]. split; [exact H3|].
  exact (proj1 (proj2 C4_basket_weights_sum_to_100) "t3" basket_80 registry_6040 H1 H2 H3).
Defined.

End WeightClaims.

(* ----------------------------------------------------------------- *)
(** ** Mint orchestration: the pending record and the reserve check *)

Module MintFlowClaims.

Import Registry MintState CREWorkflow MintExamples.

(** At the [await], the new state holds a pending record under
    [mint-<transactionId>], built from the request. *)
Lemma triggerMint_start_awaiting now t req st st' p id ma :
  triggerMint_start now t req st = AwaitingWorkflow st' p id ma ->
  id = mint_id t /\ wp_transactionId p = t /\ st_registry st' = st_registry st /\
  st_mints st' =
    <[id := {| mr_id := id; mr_basketId := req_basketId req; mr_transactionId := t;
               mr_beneficiary := req_beneficiary req; mr_amount := req_amount req;
               mr_assets := ma; mr_status := Pending; mr_createdAt := now;
               mr_completedAt := None; mr_error := None |}]> (st_mints st).
Proof.
  unfold triggerMint_start.
  destruct (getBasket _ _); [|discriminate].
  destruct (expandBasket _ _ _) as [ea|]; [|discriminate].
  destruct (Nat.eqb _ 0); [discriminate|].
  unfold createMintRecord. simpl.
  intros H. injection H as <- <- <- <-. simpl. auto.
Qed.

(** C5 (counterexample): a request for 2000000000 against the mock's
    reserve balance of 1000000000 is minted successfully. *)
Lemma C5_mint_beyond_reserve_succeeds :
  match triggerMint_start "t1" "TX" request_over state_6040 with
  | AwaitingWorkflow _ p _ _ =>
      sim_reserveBalance (runCRESimulation p) = "1000000000"%string /\
      wp_amount p = "2000000000"%string
  | Finished _ _ => False
  end /\
  res_success (snd (triggerMint "t1" "t2" "TX" request_over state_6040)) = true.
Proof. vm_compute. split; [split|]; reflexivity. Qed.

(** C5 (amended): the backend has no proof-of-reserve gate: the workflow
    is a mock that always reports a verified reserve, so every request
    that reaches the [await] is minted successfully, whatever its amount.
    The only reserve check is the dashboard's [checkMintEligibility],
    which accepts iff the store's POR flag is set, [parseInt(amount)] is
    at most [parseInt(reserveBalance)], and the random policy draw
    passes; no attestation age enters either decision. *)
Theorem C5_no_backend_reserve_gate :
  (forall p, sim_success (runCRESimulation p) = true /\ sim_porVerified (runCRESimulation p) = true) /\
  (forall now1 now2 t req st st' p id ma,
     triggerMint_start now1 t req st = AwaitingWorkflow st' p id ma ->
     res_success (snd (triggerMint now1 now2 t req st)) = true) /\
  (forall isPORValid reserveDraw policyDraw amount,
     Eligibility.chk_success
       (Eligibility.checkMintEligibility isPORValid reserveDraw policyDraw amount) =
     isPORValid &&
     SFleb (Eligibility.parseInt amount) (Eligibility.parseInt (Js.decimal_of_Z reserveDraw)) &&
     policyDraw).
Proof.
  split; [|split].
  - intros p. split; reflexivity.
  - intros now1 now2 t req st st' p id ma E.
    destruct (triggerMint_start_awaiting _ _ _ _ _ _ _ _ E) as (_ & _ & _ & Hm).
    unfold triggerMint. rewrite E. unfold triggerMint_resume.
    change (sim_success (runCRESimulation p)) with true.
    unfold updateMintRecord. rewrite Hm, lookup_insert_eq. reflexivity.
  - intros. reflexivity.
Qed.

Lemma C5_no_backend_reserve_gate_witness :
  res_success (snd (triggerMint "t1" "t2" "TX" request_over state_6040)) = true.
Proof.
  destruct (triggerMint_start "t1" "TX" request_over state_6040) as [st res|st' p id ma] eqn:E.
  - vm_compute in E. discriminate.
  - exact (proj1 (proj2 C5_no_backend_reserve_gate) "t1" "t2" "TX" request_over state_6040
             st' p id ma E).
Defined.

(** C6: when [triggerMint] reaches the [await] on the workflow (the
    expansion and filter succeeded), the mint map of the state at that
    point already holds a record under [mint-<transactionId>] with status
    pending and no completion timestamp. *)
Theorem C6_pending_record_before_await now t req st st' p id ma :
  triggerMint_start now t req st = AwaitingWorkflow st' p id ma ->
  id = mint_id t /\
  exists r, getMintRecord id (st_mints st') = Some r /\ mr_status r = Pending /\
            mr_completedAt r = None /\ mr_transactionId r = t /\ mr_assets r = ma.
Proof.
  intros E.
  destruct (triggerMint_start_awaiting _ _ _ _ _ _ _ _ E) as (Hid & _ & _ & Hm).
  split; [exact Hid|].
  eexists. unfold getMintRecord. rewrite Hm, lookup_insert_eq.
  split; [reflexivity|]. simpl. auto.
Qed.

Lemma C6_pending_record_before_await_witness :
  match triggerMint_start "t1" "TX" request_over state_6040 with
  | AwaitingWorkflow st' p id ma =>
      id = mint_id "TX" /\
      exists r, getMintRecord id (st_mints st') = Some r /\ mr_status r = Pending /\
                mr_completedAt r = None /\ mr_transactionId r = "TX"%string /\ mr_assets r = ma
  | Finished _ _ => False
  end.
Proof.
  destruct (triggerMint_start "t1" "TX" request_over state_6040) as [st res|st' p id ma] eqn:E.
  - vm_compute in E. discriminate.
  - exact (C6_pending_record_before_await "t1" "TX" request_over state_6040 st' p id ma E).
Defined.

End MintFlowClaims.

(* ----------------------------------------------------------------- *)
(** ** Mint record life cycle *)

Module MintRecordClaims.

Import MintSpec MintExamples.

Lemma consistent_run ops (m : gmap string MintState.MintRecord) :
  map_Forall (fun _ r => completion_consistent r = true) m ->
  map_Forall (fun _ r => completion_consistent r = true) (MintState.run_mint_ops ops m).
Proof.
  revert m. induction ops as [|op ops IH]; intros m Hm; simpl; [done|].
  apply IH. destruct op as [now b t ben amt a|now id u]; simpl.
  - apply map_Forall_insert_2; [reflexivity|done].
  - unfold MintState.updateMintRecord.
    destruct (m !! id) as [r|] eqn:Hr; [|done].
    apply map_Forall_insert_2; [|done].
    specialize (Hm _ _ Hr). unfold completion_consistent in *.
    unfold MintState.apply_update. simpl.
    destruct (MintState.upd_status u) as [[[]|]|]; [reflexivity|reflexivity|reflexivity|exact Hm].
Qed.

Lemma mc_consistent_run ops (m : gmap string McMintState.McMintRecord) :
  map_Forall (fun _ r => mc_completion_consistent r = true) m ->
  map_Forall (fun _ r => mc_completion_consistent r = true) (McMintState.run_mint_ops ops m).
Proof.
  revert m. induction ops as [|op ops IH]; intros m Hm; simpl; [done|].
  apply IH. destruct op as [now b c cn t ben amt a|now id u]; simpl.
  - apply map_Forall_insert_2; [reflexivity|done].
  - unfold McMintState.updateMintRecord.
    destruct (m !! id) as [r|] eqn:Hr; [|done].
    apply map_Forall_insert_2; [|done].
    specialize (Hm _ _ Hr). unfold mc_completion_consistent in *.
    unfold McMintState.apply_update. simpl.
    destruct (McMintState.mupd_status u) as [[[]|]|]; [reflexivity|reflexivity|reflexivity|exact Hm].
Qed.

(** C7 (counterexample): a record is completed, then a second update
    moves it to failed with a new completion timestamp; and a completed
    record updated with [status: undefined] ends with an undefined
    (non-terminal) status while keeping its completion timestamp. *)
Lemma C7_terminal_record_mutated :
  match MintState.run_mint_ops (firstn 2 lifecycle_ops) ∅ !! MintState.mint_id "TX" with
  | Some r => MintState.mr_status r = Completed /\ MintState.mr_completedAt r = Some "t2"%string
  | None => False
  end /\
  match MintState.run_mint_ops lifecycle_ops ∅ !! MintState.mint_id "TX" with
  | Some r => MintState.mr_status r = Failed /\ MintState.mr_completedAt r = Some "t3"%string /\
              MintState.mr_error r = Some "late failure"%string
  | None => False
  end /\
  match MintState.run_mint_ops undefined_status_ops ∅ !! MintState.mint_id "TX" with
  | Some r => MintState.mr_status r = StatusUndefined /\ is_terminal (MintState.mr_status r) = false /\
              MintState.mr_completedAt r = Some "t2"%string
  | None => False
  end.
Proof. vm_compute. split; [split|split; [split; [|split]|split; [|split]]]; reflexivity. Qed.

(** C7 (amended), for both mint services: in every map built from the
    empty one by [createMintRecord] and [updateMintRecord] calls, a
    completed or failed record has a completion timestamp and a pending
    record has none (a record whose status an update set to [undefined]
    keeps whatever timestamp it had); and [updateMintRecord] has no
    terminal-state guard: on any stored record, terminal or not, it
    succeeds and stores the merged update. *)
Theorem C7_terminal_status_has_timestamp :
  (forall ops, map_Forall (fun _ r => completion_consistent r = true)
                 (MintState.run_mint_ops ops ∅)) /\
  (forall ops, map_Forall (fun _ r => mc_completion_consistent r = true)
                 (McMintState.run_mint_ops ops ∅)) /\
  (forall now id u m r,
     m !! id = Some r ->
     MintState.updateMintRecord now id u m =
       Ok (<[id := MintState.apply_update now r u]> m, MintState.apply_update now r u)) /\
  (forall now id u m r,
     m !! id = Some r ->
     McMintState.updateMintRecord now id u m =
       Ok (<[id := McMintState.apply_update now r u]> m, McMintState.apply_update now r u)).
Proof.
  split; [|split; [|split]].
  - intros ops. apply consistent_run, map_Forall_empty.
  - intros ops. apply mc_consistent_run, map_Forall_empty.
  - intros now id u m r Hr. unfold MintState.updateMintRecord. rewrite Hr. reflexivity.
  - intros now id u m r Hr. unfold McMintState.updateMintRecord. rewrite Hr. reflexivity.
Qed.

Lemma C7_terminal_status_has_timestamp_witness :
  exists r, completed_map !! MintState.mint_id "TX" = Some r /\
    MintState.mr_status r = Completed /\
    MintState.updateMintRecord "t3" (MintState.mint_id "TX")
      (MintState.mkMintUpdate (Some (Some TFailed)) None None) completed_map =
    Ok (<[MintState.mint_id "TX" := MintState.apply_update "t3" r
            (MintState.mkMintUpdate (Some (Some TFailed)) None None)]> completed_map,
        MintState.apply_update "t3" r (MintState.mkMintUpdate (Some (Some TFailed)) None None)).
Proof.
  destruct (completed_map !! MintState.mint_id "TX") as [r|] eqn:E.
  - exists r. split; [reflexivity|]. split.
    + vm_compute in E. injection E as <-. reflexivity.
    + exact (proj1 (proj2 (proj2 C7_terminal_status_has_timestamp))
               "t3" (MintState.mint_id "TX") (MintState.mkMintUpdate (Some (Some TFailed)) None None)
               completed_map r E).
  - vm_compute in E. discriminate.
Defined.

(** C9, for both mint services: [createMintRecord] never fails; whatever
    the map held under [mint-<transactionId>] (or
    [mint-<chainId>-<transactionId>]), terminal record or not, it now
    holds the fresh pending record, with no completion timestamp and no
    error, and every other key is unchanged. *)
Theorem C9_create_replaces_existing_record :
  (forall now basketId t beneficiary amount assets (m : gmap string MintState.MintRecord),
     let '(m', r) := MintState.createMintRecord now basketId t beneficiary amount assets m in
     m' !! MintState.mint_id t = Some r /\ MintState.mr_id r = MintState.mint_id t /\
     MintState.mr_status r = Pending /\ MintState.mr_completedAt r = None /\
     MintState.mr_error r = None /\
     delete (MintState.mint_id t) m' = delete (MintState.mint_id t) m) /\
  (forall now basketId c cn t beneficiary amount assets (m : gmap string McMintState.McMintRecord),
     let '(m', r) := McMintState.createMintRecord now basketId c cn t beneficiary amount assets m in
     m' !! McMintState.mint_id c t = Some r /\ McMintState.mm_id r = McMintState.mint_id c t /\
     McMintState.mm_status r = Pending /\ McMintState.mm_completedAt r = None /\
     McMintState.mm_error r = None /\
     delete (McMintState.mint_id c t) m' = delete (McMintState.mint_id c t) m).
Proof.
  split.
  - intros. unfold MintState.createMintRecord. simpl.
    split; [apply lookup_insert_eq|]. repeat split. apply delete_insert_eq.
  - intros. unfold McMintState.createMintRecord. simpl.
    split; [apply lookup_insert_eq|]. repeat split. apply delete_insert_eq.
Qed.

End MintRecordClaims.

(* ----------------------------------------------------------------- *)
(** ** Decimal scaling before submission *)

Module ScalingClaims.

Import Registry Workflow WfExamples.

Lemma scaledAmount_ok amount decimals z :
  scaledAmount amount decimals = Ok z ->
  exists a d, bigint_of_string amount = Some a /\ bigint_of_number decimals = Some d /\
              0 <= d /\ z = a * 10 ^ d.
Proof.
  unfold scaledAmount.
  destruct (bigint_of_string amount) as [a|]; [|discriminate].
  destruct (bigint_of_number decimals) as [d|]; [|discriminate].
  destruct (Z.ltb d 0) eqn:Hd; [discriminate|].
  intros H. injection H as <-. exists a, d. apply Z.ltb_ge in Hd. auto.
Qed.

Lemma mint_loop_calls g s config beneficiary l c :
  In c (fst (mint_loop g s config beneficiary l)) ->
  exists asset a d addr, In asset l /\ bigint_of_string (wa_amount asset) = Some a /\
    bigint_of_number (decimals_of config) = Some d /\ 0 <= d /\
    g beneficiary = Some addr /\ c = (wa_contractAddress asset, addr, a * 10 ^ d).
Proof.
  induction l as [|asset l IH]; simpl; [tauto|].
  destruct (scaledAmount (wa_amount asset) (decimals_of config)) as [z|e] eqn:Hs; [|simpl; tauto].
  destruct (g beneficiary) as [addr|] eqn:Hg; [|simpl; tauto].
  destruct (scaledAmount_ok _ _ _ Hs) as (a & d & Ha & Hd & Hd0 & ->).
  destruct (s (wa_contractAddress asset) addr (a * 10 ^ d)) as [h|].
  - destruct (mint_loop g s config beneficiary l) as [calls r] eqn:Hl. simpl.
    intros [<-|Hc].
    + exists asset, a, d, addr. split; [now left|]. auto 7.
    + destruct IH as (asset' & a' & d' & addr' & Hin & H1 & H2 & H3 & H4 & H5); [exact Hc|].
      exists asset', a', d', addr'. split; [now right|]. auto 7.
  - simpl. intros [<-|[]]. exists asset, a, d, addr. split; [now left|]. auto 7.
Qed.

Lemma mint_loop_set_metadata g s config beneficiary f l :
  mint_loop g s config beneficiary
    (map (fun a => {| wa_assetId := wa_assetId a; wa_symbol := wa_symbol a;
                      wa_type := wa_type a; wa_amount := wa_amount a;
                      wa_contractAddress := wa_contractAddress a;
                      wa_chainId := wa_chainId a; wa_metadata := f (wa_metadata a) |}) l) =
  mint_loop g s config beneficiary l.
Proof.
  induction l as [|asset l IH]; simpl; [reflexivity|]. rewrite IH. reflexivity.
Qed.

(** C8 (code bug): the amount of every submission is the asset's amount
    times 10^d, where d is [config.decimals ?? 6], the same for all
    assets; the payload's assets carry no decimals field and their
    metadata is never consulted.  So with no configured [decimals], an
    asset whose metadata records 18 decimals and amount 5 is submitted as
    5 * 10^6, not 5 * 10^18. *)
Theorem C8_per_asset_decimals_ignored :
  (forall g s config payload c,
     In c (fst (onMintRequest g s config payload)) ->
     exists asset a d addr, In asset (pl_assets payload) /\
       bigint_of_string (wa_amount asset) = Some a /\
       bigint_of_number (decimals_of config) = Some d /\ 0 <= d /\
       g (pl_beneficiary payload) = Some addr /\
       c = (wa_contractAddress asset, addr, a * 10 ^ d)) /\
  (forall g s config payload f,
     onMintRequest g s config (set_metadata f payload) = onMintRequest g s config payload) /\
  fst (onMintRequest stub_getAddress stub_submit config_default payload_gold) =
    [(gold_contract, pl_beneficiary payload_gold, 5 * 10 ^ 6)] /\
  wa_metadata wf_gold = Some [("decimals"%string, MNum (Js.of_Z 18))] /\
  5 * 10 ^ 6 <> 5 * 10 ^ 18.
Proof.
  split; [|split].
  - intros g s config payload c. unfold onMintRequest.
    destruct (negb _); [simpl; tauto|]. apply mint_loop_calls.
  - intros g s config payload f. unfold onMintRequest, set_metadata. simpl.
    rewrite mint_loop_set_metadata. reflexivity.
  - split; [vm_compute; reflexivity|]. split; [reflexivity|]. lia.
Qed.

End ScalingClaims.

(* ================================================================= *)
(** * Further properties of the code *)

(** Facts about the model of JavaScript objects. *)
Module ObjFacts.

Import JsObject.

Lemma insert_by_index_perm k v (l : list (string * Z)) :
  Permutation (map fst (insert_by_index k v l)) (k :: map fst l).
Proof.
  induction l as [|[k' v'] l IH]; simpl; [reflexivity|].
  destruct (Z.ltb v v'); simpl; [reflexivity|].
  eapply Permutation_trans; [apply perm_skip, IH|]. apply perm_swap.
Qed.

Lemma index_keys_perm (ks : list string) :
  Permutation (map fst (index_keys ks) ++
               List.filter (fun k => match array_index k with Some _ => false | None => true end) ks)
              ks.
Proof.
  induction ks as [|k ks IH]; simpl; [reflexivity|].
  destruct (array_index k) as [v|] eqn:Hk.
  - eapply Permutation_trans; [apply Permutation_app_tail, insert_by_index_perm|].
    simpl. apply perm_skip, IH.
  - eapply Permutation_trans; [apply Permutation_sym, Permutation_middle|].
    apply perm_skip, IH.
Qed.

(** [Object.keys] lists each own property once. *)
Lemma keys_perm {V} (o : obj V) : Permutation (keys o) (map fst o).
Proof. unfold keys. apply index_keys_perm. Qed.

Lemma in_keys {V} (o : obj V) k : In k (keys o) <-> In k (map fst o).
Proof. split; apply Permutation_in; [apply keys_perm|apply Permutation_sym, keys_perm]. Qed.

Lemma length_keys {V} (o : obj V) : List.length (keys o) = List.length o.
Proof. rewrite (Permutation_length (keys_perm o)). apply length_map. Qed.

Lemma has_own_in {V} (o : obj V) k : has_own o k = true <-> In k (map fst o).
Proof.
  unfold has_own. rewrite existsb_exists. split.
  - intros [[k' v] [Hin Heq]]. apply String.eqb_eq in Heq. simpl in Heq. subst.
    apply in_map_iff. exists (k, v). auto.
  - intros Hin. apply in_map_iff in Hin as [[k' v] [<- Hin]].
    exists (k', v). split; [exact Hin|]. apply String.eqb_refl.
Qed.

Lemma map_fst_delete {V} (o : obj V) k :
  map fst (delete o k) = List.filter (fun c => negb (String.eqb c k)) (map fst o).
Proof.
  induction o as [|[k' v] o IH]; simpl; [reflexivity|].
  destruct (String.eqb k' k); simpl; [exact IH|]. rewrite IH. reflexivity.
Qed.

Lemma delete_not_own {V} (o : obj V) k : ~ In k (map fst o) -> delete o k = o.
Proof.
  induction o as [|[k' v] o IH]; simpl; [reflexivity|].
  intros Hn. destruct (String.eqb k' k) eqn:E.
  - apply String.eqb_eq in E. subst. exfalso. auto.
  - simpl. rewrite IH; auto.
Qed.

Lemma delete_set_new {V} (o : obj V) k v :
  ~ In k (map fst o) -> delete (set_new o k v) k = o.
Proof.
  intros Hn. unfold delete, set_new. rewrite List.filter_app. simpl.
  rewrite String.eqb_refl. simpl. rewrite app_nil_r. apply delete_not_own. exact Hn.
Qed.

End ObjFacts.

(* ----------------------------------------------------------------- *)
(** ** Mint statistics *)

Module StatsFacts.

Import ObjFacts StatsSpec.

Lemma status_partition {A} (st : A -> MintStatus) (l : list A) :
  (List.length (List.filter (fun m => MintStatus_eqb (st m) Completed) l) +
   List.length (List.filter (fun m => MintStatus_eqb (st m) Failed) l) +
   List.length (List.filter (fun m => MintStatus_eqb (st m) Pending) l) +
   List.length (List.filter (fun m => MintStatus_eqb (st m) StatusUndefined) l) = List.length l)%nat.
Proof.
  induction l as [|m l IH]; simpl; [reflexivity|].
  destruct (st m); simpl; lia.
Qed.


Lemma add_assets_count assetId l acc :
  let r := fold_left (MintStats.add_asset assetId) l acc in
  MintStats.ta_count r = (MintStats.ta_count acc + matches assetId l)%nat /\
  (matches assetId l = 0%nat -> r = acc).
Proof.
  revert acc. induction l as [|a l IH]; intros acc; simpl; [split; [unfold matches; simpl; lia|done]|].
  unfold matches in *.
  assert (Hs : MintStats.add_asset assetId acc a =
               if String.eqb (MintState.ma_assetId a) assetId
               then MintStats.mkAssetTotal (MintState.ma_symbol a)
                      (Js.add (MintStats.ta_totalAmount acc) (MintState.ma_amount a))
                      (S (MintStats.ta_count acc))
               else acc) by reflexivity.
  rewrite Hs. simpl.
  destruct (String.eqb (MintState.ma_assetId a) assetId); simpl.
  - destruct (IH (MintStats.mkAssetTotal (MintState.ma_symbol a)
                   (Js.add (MintStats.ta_totalAmount acc) (MintState.ma_amount a))
                   (S (MintStats.ta_count acc)))) as [H1 _].
    split; [simpl in H1; lia|discriminate].
  - apply IH.
Qed.

Lemma total_minted_fold assetId l acc :
  let r := fold_left (fun acc mint =>
              if MintStats.status_is Completed mint
              then fold_left (MintStats.add_asset assetId) (MintState.mr_assets mint) acc
              else acc) l acc in
  MintStats.ta_count r =
    (MintStats.ta_count acc +
     matches assetId (flat_map MintState.mr_assets (List.filter (MintStats.status_is Completed) l)))%nat /\
  (matches assetId (flat_map MintState.mr_assets (List.filter (MintStats.status_is Completed) l)) = 0%nat ->
   r = acc).
Proof.
  revert acc. induction l as [|m l IH]; intros acc; simpl; [split; [unfold matches; simpl; lia|done]|].
  destruct (MintStats.status_is Completed m); simpl; [|apply IH].
  unfold matches in *. rewrite List.filter_app, length_app.
  destruct (add_assets_count assetId (MintState.mr_assets m) acc) as [H1 H2].
  unfold matches in H1, H2.
  destruct (IH (fold_left (MintStats.add_asset assetId) (MintState.mr_assets m) acc)) as [H3 H4].
  split; [lia|]. intros H0. rewrite H4 by lia. apply H2. lia.
Qed.

(** [getTotalMintedByAsset]: only completed records count; the count is
    the number of minted-asset entries with that asset-id in them; and
    with no such entry the result is the asset-id as symbol, a total of
    0 and a count of 0. *)
Theorem getTotalMintedByAsset_completed_only assetId all :
  MintStats.getTotalMintedByAsset assetId all =
    MintStats.getTotalMintedByAsset assetId (List.filter (MintStats.status_is Completed) all) /\
  MintStats.ta_count (MintStats.getTotalMintedByAsset assetId all) =
    matches assetId (flat_map MintState.mr_assets (List.filter (MintStats.status_is Completed) all)) /\
  (matches assetId (flat_map MintState.mr_assets (List.filter (MintStats.status_is Completed) all)) = 0%nat ->
   MintStats.getTotalMintedByAsset assetId all = MintStats.mkAssetTotal assetId (Js.of_Z 0) 0).
Proof.
  split; [|split].
  - unfold MintStats.getTotalMintedByAsset.
    generalize (MintStats.mkAssetTotal assetId (Js.of_Z 0) 0). induction all as [|m l IH]; intros acc; simpl; [done|].
    destruct (MintStats.status_is Completed m) eqn:E; simpl; rewrite ?E; apply IH.
  - apply (total_minted_fold assetId all (MintStats.mkAssetTotal assetId (Js.of_Z 0) 0)).
  - apply (total_minted_fold assetId all (MintStats.mkAssetTotal assetId (Js.of_Z 0) 0)).
Qed.

Lemma getTotalMintedByAsset_completed_only_witness :
  matches "gold" (flat_map MintState.mr_assets
     (List.filter (MintStats.status_is Completed) failed_gold_completed_usdc)) = 0%nat /\
  MintStats.getTotalMintedByAsset "gold" failed_gold_completed_usdc =
    MintStats.mkAssetTotal "gold" (Js.of_Z 0) 0.
Proof.
  split; [reflexivity|].
  apply (proj2 (proj2 (getTotalMintedByAsset_completed_only "gold" failed_gold_completed_usdc))).
  reflexivity.
Defined.

Lemma map_fst_bump_own (o : JsObject.obj (nat * Js.number)) k a :
  map fst (McMintStats.bump_own o k a) = map fst o.
Proof.
  unfold McMintStats.bump_own. rewrite map_map. apply map_ext.
  intros kv. destruct (String.eqb (fst kv) k); reflexivity.
Qed.

Lemma by_chain_fold (l : list McMintState.McMintRecord) (o : JsObject.obj (nat * Js.number)) :
  List.NoDup (map fst o) ->
  let o' := fold_left McMintStats.by_chain_update l o in
  List.NoDup (map fst o') /\
  (forall k, In k (map fst o') <->
             In k (map fst o) \/ In k (List.filter not_proto (map McMintState.mm_chainId l))).
Proof.
  revert o. induction l as [|m l IH]; intros o Hnd; simpl.
  - split; [exact Hnd|]. intros k. tauto.
  - set (c := McMintState.mm_chainId m).
    assert (Hstep : List.NoDup (map fst (McMintStats.by_chain_update o m)) /\
                    forall k, In k (map fst (McMintStats.by_chain_update o m)) <->
                              In k (map fst o) \/ (k = c /\ not_proto c = true)).
    { unfold McMintStats.by_chain_update. fold c. rewrite map_fst_bump_own.
      unfold JsObject.get_truthy, not_proto.
      destruct (existsb (String.eqb c) JsObject.prototype_props) eqn:Hp;
        destruct (JsObject.has_own o c) eqn:Hown; cbn [orb negb].
      - split; [exact Hnd|]. intros k. split; [tauto|]. intros [H|[_ H]]; [exact H|discriminate].
      - split; [exact Hnd|]. intros k. split; [tauto|]. intros [H|[_ H]]; [exact H|discriminate].
      - apply has_own_in in Hown. split; [exact Hnd|]. intros k. split; [tauto|].
        intros [H|[-> _]]; auto.
      - assert (Hnin : ~ In c (map fst o)).
        { intros Hin. apply has_own_in in Hin. congruence. }
        + unfold JsObject.set_new. rewrite map_app. simpl. split.
          * apply (Permutation_NoDup (Permutation_cons_append _ _)).
            constructor; [exact Hnin|exact Hnd].
          * intros k. rewrite in_app_iff. simpl. split.
            -- intros [H|[<-|[]]]; auto.
            -- intros [H|[-> _]]; auto. }
    destruct Hstep as [Hnd' Hin'].
    destruct (IH _ Hnd') as [Hnd'' Hin'']. split; [exact Hnd''|].
    intros k. rewrite Hin'', Hin'. simpl. fold c.
    destruct (not_proto c) eqn:Hc; simpl; split; intros; intuition congruence.
Qed.

Lemma by_chain_ok acc l o' p' :
  McMintStats.by_chain acc l = Ok (o', p') -> o' = fold_left McMintStats.by_chain_update l (fst acc).
Proof.
  revert acc. induction l as [|m l IH]; intros [o p]; simpl.
  - intros H. injection H as <- _. reflexivity.
  - destruct (p && _ && _); [discriminate|]. intros H. exact (IH _ H).
Qed.

(** [getBasketCrossChainStats], when it returns: every record of the
    basket is counted as exactly one of completed, failed and pending,
    except the records whose status an update set to [undefined], which
    are counted in none; and [chainsActive] is the number of distinct
    chain-ids among its completed records, chain-ids naming a built-in
    property of [Object.prototype] (such as ["constructor"] or
    ["__proto__"]) left out. *)
Theorem getBasketCrossChainStats_counts polluted basketId all s polluted' :
  McMintStats.getBasketCrossChainStats polluted basketId all = Ok (s, polluted') ->
  let completed := List.filter (McMintStats.status_is Completed)
                     (McMintStats.getMintsByBasket basketId all) in
  (McMintStats.cs_completedMints s + McMintStats.cs_failedMints s +
   McMintStats.cs_pendingMints s +
   List.length (List.filter (McMintStats.status_is StatusUndefined)
                  (McMintStats.getMintsByBasket basketId all)) = McMintStats.cs_totalMints s)%nat /\
  McMintStats.cs_chainsActive s =
    List.length (List.nodup string_dec (List.filter not_proto (map McMintState.mm_chainId completed))).
Proof.
  unfold McMintStats.getBasketCrossChainStats.
  destruct (McMintStats.by_chain _ _) as [[o p]|e] eqn:E; [|discriminate].
  intros H. injection H as <- _. apply by_chain_ok in E. simpl in E. subst o.
  set (completed := List.filter (McMintStats.status_is Completed)
                      (McMintStats.getMintsByBasket basketId all)). split.
  - apply (status_partition McMintState.mm_status).
  - simpl. rewrite length_keys, <- (length_map fst).
    destruct (by_chain_fold completed [] (List.NoDup_nil _)) as [Hnd Hin].
    apply Permutation_length, Stdlib.Sorting.Permutation.NoDup_Permutation;
      [exact Hnd|apply List.NoDup_nodup|].
    intros k. rewrite Hin, nodup_In. simpl. tauto.
Qed.

Lemma getBasketCrossChainStats_counts_witness :
  exists s p,
    McMintStats.getBasketCrossChainStats false "multi" CrossChainSpec.mc_mints_two_chains = Ok (s, p) /\
    let completed := List.filter (McMintStats.status_is Completed)
                       (McMintStats.getMintsByBasket "multi" CrossChainSpec.mc_mints_two_chains) in
    (McMintStats.cs_completedMints s + McMintStats.cs_failedMints s +
     McMintStats.cs_pendingMints s +
     List.length (List.filter (McMintStats.status_is StatusUndefined)
                    (McMintStats.getMintsByBasket "multi" CrossChainSpec.mc_mints_two_chains)) =
     McMintStats.cs_totalMints s)%nat /\
    McMintStats.cs_chainsActive s =
      List.length (List.nodup string_dec (List.filter not_proto (map McMintState.mm_chainId completed))).
Proof.
  destruct (McMintStats.getBasketCrossChainStats false "multi" CrossChainSpec.mc_mints_two_chains)
    as [[s p]|e] eqn:E.
  - exists s, p. split; [reflexivity|].
    exact (getBasketCrossChainStats_counts false "multi" CrossChainSpec.mc_mints_two_chains s p E).
  - vm_compute in E. discriminate.
Defined.

End StatsFacts.

(* ----------------------------------------------------------------- *)
(** ** Chain sets of the multi-chain registries for well-formed inputs *)

Module McRegistryFacts.

Import MultiChain McSpec ObjFacts.

Lemma distinct_NoDup l : distinct l = true <-> List.NoDup l.
Proof.
  induction l as [|x l IH]; simpl.
  - split; [constructor|reflexivity].
  - rewrite andb_true_iff, negb_true_iff, IH. split.
    + intros [Hx Hnd]. constructor; [|exact Hnd].
      intros Hin. assert (existsb (String.eqb x) l = true) as Hc by
        (apply existsb_exists; exists x; split; [exact Hin|apply String.eqb_refl]).
      congruence.
    + intros Hnd. inversion Hnd as [|? ? Hx Hnd']; subst. split; [|exact Hnd'].
      destruct (existsb (String.eqb x) l) eqn:E; [|reflexivity].
      apply existsb_exists in E as [y [Hy Hxy]]. apply String.eqb_eq in Hxy. subst. contradiction.
Qed.

Lemma includes_some l c : includes l (Some c) = true <-> In c l.
Proof.
  unfold includes. rewrite existsb_exists. simpl. split.
  - intros [x [Hx Heq]]. apply String.eqb_eq in Heq. subst. exact Hx.
  - intros Hin. exists c. split; [exact Hin|apply String.eqb_refl].
Qed.

Lemma strict_eq_some x c : JsObject.strict_eq x c = true <-> x = Some c.
Proof.
  destruct x as [s|]; simpl; [|split; discriminate].
  rewrite String.eqb_eq. split; congruence.
Qed.

Lemma all_equal_short (l : list string) c :
  List.NoDup l -> (forall x, In x l -> x = c) -> (List.length l <= 1)%nat.
Proof.
  intros Hnd Hall. destruct l as [|x [|y l]]; simpl; try lia.
  inversion Hnd as [|? ? Hx _]; subst. exfalso. apply Hx.
  rewrite (Hall y) by (simpl; auto). rewrite <- (Hall x) by (simpl; auto). simpl. auto.
Qed.

(** Removing one element of a repeat-free list of length other than 1
    leaves some element. *)
Lemma filter_other (l : list string) c :
  List.NoDup l -> In c l -> List.length l <> 1%nat ->
  exists d, head (List.filter (fun x => negb (String.eqb x c)) l) = Some d /\ In d l /\ d <> c.
Proof.
  intros Hnd Hin Hlen.
  destruct (List.filter (fun x => negb (String.eqb x c)) l) as [|d r] eqn:E.
  - exfalso. assert (Hall : forall x, In x l -> x = c).
    { intros x Hx. destruct (String.eqb x c) eqn:Ex; [apply String.eqb_eq; exact Ex|].
      assert (Hf : In x (List.filter (fun x => negb (String.eqb x c)) l))
        by (apply filter_In; rewrite Ex; auto).
      rewrite E in Hf. destruct Hf. }
    pose proof (all_equal_short l c Hnd Hall). destruct l; simpl in *; [destruct Hin|lia].
  - exists d. assert (Hd : In d (List.filter (fun x => negb (String.eqb x c)) l)) by (rewrite E; left; reflexivity).
    apply filter_In in Hd as [Hd Hne]. split; [reflexivity|]. split; [exact Hd|].
    intros ->. rewrite String.eqb_refl in Hne. discriminate.
Qed.

Lemma in_filter_ne (l : list string) c d : In d l -> d <> c ->
  In d (List.filter (fun x => negb (String.eqb x c)) l).
Proof.
  intros Hd Hne. apply filter_In. split; [exact Hd|].
  destruct (String.eqb d c) eqn:E; [apply String.eqb_eq in E; contradiction|reflexivity].
Qed.

Lemma basket_inv_step (s : McState) op :
  basket_input_ok op = true ->
  map_Forall (fun _ b => basket_inv b) (mc_baskets s) ->
  map_Forall (fun _ b => basket_inv b) (mc_baskets (apply_mc_op s op)).
Proof.
  intros Hok Hs. destruct op as [now a|now aid c ca|now aid c|now b|now bid c|now bid c]; simpl; try exact Hs.
  - simpl in Hok. unfold createBasket.
    destruct (mc_baskets s !! mcb_id b); simpl; [exact Hs|].
    destruct (Nat.eqb (List.length (mcb_supportedChains b)) 0) eqn:Hl; simpl; [exact Hs|].
    destruct (includes (mcb_supportedChains b) (mcb_defaultChain b)) eqn:Hi; simpl; [|exact Hs].
    destruct (Js.eqb _ _); simpl; [|exact Hs].
    apply map_Forall_insert_2; [|exact Hs].
    apply distinct_NoDup in Hok. unfold basket_inv, basket_chains_ok; simpl. split; [exact Hok|]. split.
    + intros E. rewrite E in Hl. discriminate.
    + destruct (mcb_defaultChain b) as [d|].
      2:{ exfalso. apply existsb_exists in Hi as [x [_ Hx]]. discriminate Hx. }
      exists d. split; [reflexivity|]. apply includes_some, Hi.
  - unfold addChainToBasket.
    destruct (mc_baskets s !! bid) as [b|] eqn:Hb; simpl; [|exact Hs].
    destruct (includes (mcb_supportedChains b) (Some c)) eqn:Hi; simpl; [exact Hs|].
    apply map_Forall_insert_2; [|exact Hs].
    destruct (Hs _ _ Hb) as [Hnd [Hne [d [Hd Hin]]]]. unfold basket_inv, basket_chains_ok; simpl. split.
    + apply (Permutation_NoDup (Permutation_cons_append _ _)). constructor; [|exact Hnd].
      intros Hc. apply includes_some in Hc. congruence.
    + split; [destruct (mcb_supportedChains b); discriminate|].
      exists d. split; [exact Hd|]. apply in_or_app. left. exact Hin.
  - unfold removeChainFromBasket.
    destruct (mc_baskets s !! bid) as [b|] eqn:Hb; simpl; [|exact Hs].
    destruct (includes (mcb_supportedChains b) (Some c)) eqn:Hi; simpl; [|exact Hs].
    destruct (Nat.eqb (List.length (mcb_supportedChains b)) 1) eqn:Hl; simpl; [exact Hs|].
    apply map_Forall_insert_2; [|exact Hs].
    destruct (Hs _ _ Hb) as [Hnd [Hne [d [Hd Hin]]]].
    apply includes_some in Hi. apply Nat.eqb_neq in Hl.
    destruct (filter_other _ _ Hnd Hi Hl) as [d' [Hh [Hd' Hne']]].
    unfold basket_inv, basket_chains_ok; simpl.
    split; [apply List.NoDup_filter, Hnd|]. split.
    + intros E. pose proof (in_filter_ne _ _ _ Hd' Hne') as Hf. rewrite E in Hf. destruct Hf.
    + destruct (JsObject.strict_eq (mcb_defaultChain b) c) eqn:Hdc.
      * exists d'. split; [exact Hh|]. apply in_filter_ne; assumption.
      * exists d. split; [exact Hd|]. apply in_filter_ne; [exact Hin|].
        intros ->. rewrite Hd in Hdc. simpl in Hdc. rewrite String.eqb_refl in Hdc. discriminate.
Qed.

(** Multi-chain baskets: when every basket is created with a supported-chain
    list without repeats, every basket in the registry, after any sequence
    of creations, chain additions and chain removals (failed calls
    included), keeps a repeat-free, non-empty supported-chain list that
    contains its default chain. *)
Theorem basket_chain_set_kept ops :
  forallb basket_input_ok ops = true ->
  map_Forall (fun _ b => basket_inv b) (mc_baskets (run_mc_ops ops empty_mc)).
Proof.
  unfold run_mc_ops.
  assert (H0 : map_Forall (fun _ b => basket_inv b) (mc_baskets empty_mc)) by apply map_Forall_empty.
  revert H0. generalize empty_mc as s0.
  induction ops as [|op ops IH]; intros s Hs Hok; simpl; [exact Hs|].
  simpl in Hok. apply andb_true_iff in Hok as [Hop Hops].
  apply IH; [apply basket_inv_step; assumption|exact Hops].
Qed.

Lemma asset_inv_step (s : McState) op :
  asset_input_ok op = true ->
  map_Forall (fun _ a => asset_inv a) (mc_assets s) ->
  map_Forall (fun _ a => asset_inv a) (mc_assets (apply_mc_op s op)).
Proof.
  intros Hok Hs. destruct op as [now a|now aid c ca|now aid c|now b|now bid c|now bid c]; simpl; try exact Hs.
  - simpl in Hok. apply andb_true_iff in Hok as [Hnd Hd]. unfold registerMultiChainAsset.
    destruct (mc_assets s !! mca_id a); simpl; [exact Hs|].
    destruct (Nat.eqb _ 0); simpl; [exact Hs|].
    destruct (negb _); simpl; [exact Hs|].
    apply map_Forall_insert_2; [|exact Hs].
    unfold asset_inv; simpl. split; [apply distinct_NoDup, Hnd|].
    destruct (mca_defaultChain a) as [d|]; [|discriminate].
    exists d. split; [reflexivity|]. apply has_own_in, Hd.
  - unfold addAssetToChain.
    destruct (mc_assets s !! aid) as [a|] eqn:Ha; simpl; [|exact Hs].
    destruct (JsObject.get_truthy (mca_chains a) c) eqn:Hg; simpl; [exact Hs|].
    apply map_Forall_insert_2; [|exact Hs].
    destruct (Hs _ _ Ha) as [Hnd [d [Hd Hin]]].
    assert (Hc : ~ In c (map fst (mca_chains a))).
    { intros Hc. apply has_own_in in Hc. unfold JsObject.get_truthy in Hg. rewrite Hc in Hg. discriminate. }
    unfold asset_inv; simpl. unfold JsObject.set_new. rewrite map_app. simpl. split.
    + apply (Permutation_NoDup (Permutation_cons_append _ _)). constructor; assumption.
    + exists d. split; [exact Hd|]. apply in_or_app. left. exact Hin.
  - unfold removeAssetFromChain.
    destruct (mc_assets s !! aid) as [a|] eqn:Ha; simpl; [|exact Hs].
    destruct (negb (JsObject.get_truthy (mca_chains a) c)); simpl; [exact Hs|].
    destruct (Nat.eqb (List.length (JsObject.keys (mca_chains a))) 1) eqn:Hl; simpl; [exact Hs|].
    apply map_Forall_insert_2; [|exact Hs].
    destruct (Hs _ _ Ha) as [Hnd [d [Hd Hin]]].
    unfold asset_inv; simpl. rewrite map_fst_delete. split; [apply List.NoDup_filter, Hnd|].
    destruct (JsObject.strict_eq (mca_defaultChain a) c) eqn:Hdc.
    + apply strict_eq_some in Hdc. rewrite Hdc in Hd. injection Hd as <-.
      assert (Hndk : List.NoDup (JsObject.keys (mca_chains a)))
        by (apply (Permutation_NoDup (Permutation_sym (keys_perm _))), Hnd).
      apply Nat.eqb_neq in Hl.
      destruct (filter_other _ _ Hndk (proj2 (in_keys _ _) Hin) Hl) as [d' [Hh [Hd' Hne']]].
      exists d'. split; [exact Hh|]. apply in_filter_ne; [apply in_keys, Hd'|exact Hne'].
    + exists d. split; [exact Hd|]. apply in_filter_ne; [exact Hin|].
      intros ->. rewrite Hd in Hdc. simpl in Hdc. rewrite String.eqb_refl in Hdc. discriminate.
Qed.

Lemma asset_inv_chains_ok a :
  asset_inv a -> asset_chains_ok a /\ List.NoDup (JsObject.keys (mca_chains a)).
Proof.
  intros [Hnd [d [Hd Hin]]]. split.
  - split.
    + intros E. apply in_keys in Hin. rewrite E in Hin. destruct Hin.
    + exists d. split; [exact Hd|]. apply in_keys, Hin.
  - apply (Permutation_NoDup (Permutation_sym (keys_perm _))), Hnd.
Qed.

(** Multi-chain assets: when every asset is registered with distinct chain
    keys and a default chain that is one of its own keys, every asset in
    the registry, after any sequence of registrations, chain additions and
    chain removals (failed calls included), has a non-empty set of chain
    keys without repeats that contains its default chain. *)
Theorem asset_chain_set_kept ops :
  forallb asset_input_ok ops = true ->
  map_Forall (fun _ a => asset_chains_ok a /\ List.NoDup (JsObject.keys (mca_chains a)))
             (mc_assets (run_mc_ops ops empty_mc)).
Proof.
  intros Hok. eapply map_Forall_impl; [|intros ? ? H; apply asset_inv_chains_ok, H].
  revert Hok. unfold run_mc_ops.
  assert (H0 : map_Forall (fun _ a => asset_inv a) (mc_assets empty_mc)) by apply map_Forall_empty.
  revert H0. generalize empty_mc as s0.
  induction ops as [|op ops IH]; intros s Hs Hok; simpl; [exact Hs|].
  simpl in Hok. apply andb_true_iff in Hok as [Hop Hops].
  apply IH; [apply asset_inv_step; assumption|exact Hops].
Qed.

(** Adding a chain to a multi-chain basket and then removing it again
    succeeds and gives back the original basket (supported chains in the
    same order, same default chain), with only [updatedAt] changed; the
    registry is the original one with that basket. *)
Theorem basket_add_remove_chain now1 now2 bid c m b :
  m !! bid = Some b ->
  includes (mcb_supportedChains b) (Some c) = false ->
  mcb_supportedChains b <> [] ->
  mcb_defaultChain b <> Some c ->
  exists m1 b1,
    addChainToBasket now1 bid c m = Ok (m1, b1) /\
    removeChainFromBasket now2 bid c m1 =
      Ok (<[bid := with_basket_chains b (mcb_supportedChains b) (mcb_defaultChain b) now2]> m,
          with_basket_chains b (mcb_supportedChains b) (mcb_defaultChain b) now2).
Proof.
  intros Hb Hi Hne Hd. unfold addChainToBasket. rewrite Hb, Hi.
  eexists _, _. split; [reflexivity|].
  unfold removeChainFromBasket. rewrite lookup_insert_eq. simpl.
  assert (Hc : includes (mcb_supportedChains b ++ [c]) (Some c) = true)
    by (apply includes_some, in_or_app; right; left; reflexivity).
  rewrite Hc. simpl.
  assert (Hl : Nat.eqb (List.length (mcb_supportedChains b ++ [c])) 1 = false).
  { apply Nat.eqb_neq. rewrite length_app. simpl.
    destruct (mcb_supportedChains b); [contradiction|simpl; lia]. }
  rewrite Hl.
  assert (Hdc : JsObject.strict_eq (mcb_defaultChain b) c = false).
  { destruct (JsObject.strict_eq (mcb_defaultChain b) c) eqn:E; [|reflexivity].
    apply strict_eq_some in E. contradiction. }
  rewrite Hdc.
  assert (Hf : List.filter (fun x => negb (String.eqb x c)) (mcb_supportedChains b ++ [c])
               = mcb_supportedChains b).
  { rewrite List.filter_app. simpl. rewrite String.eqb_refl, app_nil_r. simpl.
    apply forallb_filter_id. apply forallb_forall. intros x Hx.
    destruct (String.eqb x c) eqn:E; [|reflexivity].
    apply String.eqb_eq in E. subst. apply includes_some in Hx. congruence. }
  rewrite Hf, insert_insert_eq. reflexivity.
Qed.

(** Deploying a multi-chain asset on a new chain and then removing that
    chain again succeeds and gives back the original chain map and default
    chain, with only [updatedAt] changed; the registry is the original one
    with that asset. *)
Theorem asset_add_remove_chain now1 now2 aid c ca m a :
  m !! aid = Some a ->
  JsObject.get_truthy (mca_chains a) c = false ->
  mca_chains a <> [] ->
  mca_defaultChain a <> Some c ->
  exists m1 a1,
    addAssetToChain now1 aid c ca m = Ok (m1, a1) /\
    removeAssetFromChain now2 aid c m1 =
      Ok (<[aid := with_asset_chains a (mca_chains a) (mca_defaultChain a) now2]> m,
          with_asset_chains a (mca_chains a) (mca_defaultChain a) now2).
Proof.
  intros Ha Hg Hne Hd. unfold addAssetToChain. rewrite Ha, Hg.
  eexists _, _. split; [reflexivity|].
  unfold removeAssetFromChain. rewrite lookup_insert_eq. simpl.
  assert (Hc : ~ In c (map fst (mca_chains a))).
  { intros Hc. apply has_own_in in Hc. unfold JsObject.get_truthy in Hg. rewrite Hc in Hg. discriminate. }
  assert (Ht : JsObject.get_truthy (JsObject.set_new (mca_chains a) c ca) c = true).
  { unfold JsObject.get_truthy. rewrite (proj2 (has_own_in _ _)); [reflexivity|].
    unfold JsObject.set_new. rewrite map_app. apply in_or_app. right. left. reflexivity. }
  rewrite Ht. simpl.
  assert (Hl : Nat.eqb (List.length (JsObject.keys (JsObject.set_new (mca_chains a) c ca))) 1 = false).
  { apply Nat.eqb_neq. rewrite length_keys. unfold JsObject.set_new. rewrite length_app. simpl.
    destruct (mca_chains a); [contradiction|simpl; lia]. }
  rewrite Hl.
  assert (Hdc : JsObject.strict_eq (mca_defaultChain a) c = false).
  { destruct (JsObject.strict_eq (mca_defaultChain a) c) eqn:E; [|reflexivity].
    apply strict_eq_some in E. contradiction. }
  rewrite Hdc, delete_set_new by exact Hc.
  rewrite insert_insert_eq. reflexivity.
Qed.

Lemma basket_chain_set_kept_witness :
  forallb basket_input_ok McRoundExamples.solo_ops = true /\
  map_Forall (fun _ b => basket_inv b) (mc_baskets (run_mc_ops McRoundExamples.solo_ops empty_mc)).
Proof. split; [reflexivity|]. apply basket_chain_set_kept. reflexivity. Defined.

Lemma asset_chain_set_kept_witness :
  forallb asset_input_ok McRoundExamples.solo_ops = true /\
  map_Forall (fun _ a => asset_chains_ok a /\ List.NoDup (JsObject.keys (mca_chains a)))
             (mc_assets (run_mc_ops McRoundExamples.solo_ops empty_mc)).
Proof. split; [reflexivity|]. apply asset_chain_set_kept. reflexivity. Defined.

Lemma basket_add_remove_chain_witness :
  exists m1 b1,
    addChainToBasket "t2" "solo" "base-sepolia" McRoundExamples.baskets_solo = Ok (m1, b1) /\
    removeChainFromBasket "t3" "solo" "base-sepolia" m1 =
      Ok (<["solo" := with_basket_chains McRoundExamples.basket_solo ["ethereum-sepolia"]
                        (Some "ethereum-sepolia") "t3"]> McRoundExamples.baskets_solo,
          with_basket_chains McRoundExamples.basket_solo ["ethereum-sepolia"]
            (Some "ethereum-sepolia") "t3").
Proof.
  apply (basket_add_remove_chain "t2" "t3" "solo" "base-sepolia"
           McRoundExamples.baskets_solo McRoundExamples.basket_solo);
    [reflexivity|reflexivity|discriminate|discriminate].
Defined.

Lemma asset_add_remove_chain_witness :
  exists m1 a1,
    addAssetToChain "t2" "usdc-mc" "base-sepolia" McRoundExamples.base_usdc
      McRoundExamples.assets_solo = Ok (m1, a1) /\
    removeAssetFromChain "t3" "usdc-mc" "base-sepolia" m1 =
      Ok (<["usdc-mc" := with_asset_chains McRoundExamples.asset_solo
                           [("ethereum-sepolia", McExamples.sepolia_usdc)]
                           (Some "ethereum-sepolia") "t3"]> McRoundExamples.assets_solo,
          with_asset_chains McRoundExamples.asset_solo
            [("ethereum-sepolia", McExamples.sepolia_usdc)] (Some "ethereum-sepolia") "t3").
Proof.
  apply (asset_add_remove_chain "t2" "t3" "usdc-mc" "base-sepolia" McRoundExamples.base_usdc
           McRoundExamples.assets_solo McRoundExamples.asset_solo);
    [reflexivity|reflexivity|discriminate|discriminate].
Defined.

End McRegistryFacts.

(* ----------------------------------------------------------------- *)
(** ** Outcome of [triggerMint] *)

Module TriggerMintFacts.

Import Registry MintState CREWorkflow.

Lemma AssetType_eqb_eq x y : AssetType_eqb x y = true -> x = y.
Proof. destruct x, y; simpl; congruence. Qed.

(** [triggerMint] (with the mock workflow, which always succeeds) either
    fails, returning no mint record and leaving the mint map untouched, or
    succeeds, storing under ["mint-" ++ transactionId] a record that is
    already completed at the second clock reading, carries the request's
    basket, beneficiary and amount, no error, and at least one asset, and
    returning that record. The asset registry is never changed. *)
Theorem triggerMint_outcome now1 now2 tx req st :
  let st' := fst (triggerMint now1 now2 tx req st) in
  let res := snd (triggerMint now1 now2 tx req st) in
  st_registry st' = st_registry st /\ res_transactionId res = tx /\
  ((res_success res = false /\ st' = st /\ res_mintRecord res = None) \/
   (res_success res = true /\ res_error res = None /\
    exists r, res_mintRecord res = Some r /\
      st_mints st' = <[mint_id tx := r]> (st_mints st) /\
      mr_id r = mint_id tx /\ mr_transactionId r = tx /\
      mr_status r = Completed /\ mr_createdAt r = now1 /\ mr_completedAt r = Some now2 /\
      mr_basketId r = req_basketId req /\ mr_beneficiary r = req_beneficiary req /\
      mr_amount r = req_amount req /\ mr_error r = None /\ mr_assets r <> [])).
Proof.
  unfold triggerMint, triggerMint_start.
  destruct (getBasket (req_basketId req) (st_registry st)); simpl;
    [|split; [reflexivity|split; [reflexivity|left; auto]]].
  destruct (expandBasket (req_basketId req) (req_amount req) (st_registry st)) as [l|e]; simpl;
    [|split; [reflexivity|split; [reflexivity|left; auto]]].
  set (f := match req_assetTypeFilter req with
            | Some t => List.filter (fun ea => AssetType_eqb (asset_type (fst ea)) t) l
            | None => l end).
  destruct (Nat.eqb (List.length f) 0) eqn:Hl; simpl;
    [split; [reflexivity|split; [reflexivity|left; auto]]|].
  unfold triggerMint_resume, updateMintRecord. simpl. rewrite lookup_insert_eq. simpl.
  split; [reflexivity|]. split; [reflexivity|]. right. split; [reflexivity|]. split; [reflexivity|].
  eexists. split; [reflexivity|]. rewrite insert_insert_eq.
  do 10 (split; [reflexivity|]).
  apply Nat.eqb_neq in Hl. intros E. apply (f_equal (@List.length _)) in E.
  simpl in E. rewrite length_map in E. contradiction.
Qed.

(** With an asset-type filter, every asset of the record [triggerMint]
    returns has the requested type. *)
Theorem triggerMint_type_filter now1 now2 tx req st t r :
  req_assetTypeFilter req = Some t ->
  res_mintRecord (snd (triggerMint now1 now2 tx req st)) = Some r ->
  List.Forall (fun a => ma_type a = t) (mr_assets r).
Proof.
  intros Ht Hr. unfold triggerMint, triggerMint_start in Hr. rewrite Ht in Hr.
  destruct (getBasket (req_basketId req) (st_registry st)); simpl in Hr; [|discriminate].
  destruct (expandBasket (req_basketId req) (req_amount req) (st_registry st)) as [l|e];
    simpl in Hr; [|discriminate].
  destruct (Nat.eqb _ 0); simpl in Hr; [discriminate|].
  unfold triggerMint_resume, updateMintRecord in Hr. simpl in Hr.
  rewrite lookup_insert_eq in Hr. simpl in Hr. injection Hr as <-. simpl.
  apply List.Forall_forall. intros a Ha. apply in_map_iff in Ha as [ea [<- Hea]].
  apply filter_In in Hea as [_ Hea]. apply AssetType_eqb_eq in Hea. exact Hea.
Qed.

Lemma triggerMint_type_filter_witness :
  exists r,
    res_mintRecord (snd (triggerMint "t1" "t2" "TX" TriggerExamples.request_gold
                           MintExamples.state_6040)) = Some r /\
    List.Forall (fun a => ma_type a = PhysicalBacked) (mr_assets r).
Proof.
  eexists. split; [vm_compute; reflexivity|].
  apply (triggerMint_type_filter "t1" "t2" "TX" TriggerExamples.request_gold MintExamples.state_6040);
    [reflexivity|vm_compute; reflexivity].
Defined.

End TriggerMintFacts.

(* ----------------------------------------------------------------- *)
(** ** The per-asset mint loop of [onMintRequest] *)

Module WorkflowFacts.

Import Registry Workflow.

(** The loop over two lists of assets is the loop over the first one
    followed, only if that one ended without error, by the loop over the
    second one: an error stops the loop before any later asset, and the
    submissions already made stay made. *)
Theorem mint_loop_app g s config beneficiary l1 l2 :
  mint_loop g s config beneficiary (l1 ++ l2) =
  match mint_loop g s config beneficiary l1 with
  | (c1, Ok hs1) =>
      let '(c2, r2) := mint_loop g s config beneficiary l2 in
      (c1 ++ c2, match r2 with Ok hs2 => Ok (hs1 ++ hs2) | Throw e => Throw e end)
  | (c1, Throw e) => (c1, Throw e)
  end.
Proof.
  induction l1 as [|asset l1 IH]; simpl.
  - destruct (mint_loop g s config beneficiary l2) as [c2 [hs2|e2]]; reflexivity.
  - destruct (scaledAmount (wa_amount asset) (decimals_of config)) as [z|e]; [|reflexivity].
    destruct (g beneficiary) as [addr|]; [|reflexivity].
    destruct (s (wa_contractAddress asset) addr z) as [h|]; [|reflexivity].
    rewrite IH.
    destruct (mint_loop g s config beneficiary l1) as [c1 [hs1|e1]]; [|reflexivity].
    destruct (mint_loop g s config beneficiary l2) as [c2 [hs2|e2]]; reflexivity.
Qed.

Lemma mint_loop_ok g s config beneficiary l calls hs :
  mint_loop g s config beneficiary l = (calls, Ok hs) ->
  List.length calls = List.length l /\ map fst hs = map wa_symbol l /\
  map (fun c => fst (fst c)) calls = map wa_contractAddress l.
Proof.
  revert calls hs. induction l as [|asset l IH]; simpl; intros calls hs H.
  - injection H as <- <-. auto.
  - destruct (scaledAmount (wa_amount asset) (decimals_of config)) as [z|e]; [|discriminate].
    destruct (g beneficiary) as [addr|]; [|discriminate].
    destruct (s (wa_contractAddress asset) addr z) as [h|]; [|discriminate].
    destruct (mint_loop g s config beneficiary l) as [c [hs'|e]] eqn:E; [|discriminate].
    injection H as <- <-. destruct (IH _ _ eq_refl) as (H1 & H2 & H3).
    simpl. rewrite H1, H2, H3. auto.
Qed.

(** [onMintRequest] completes only for a configured chain, and then it has
    submitted exactly one transaction per asset of the payload, in the
    payload's order, to that asset's contract, and reports one transaction
    hash per asset under the asset's symbol. *)
Theorem onMintRequest_success g s config p calls hs :
  onMintRequest g s config p = (calls, Ok hs) ->
  JsObject.get_truthy (cfg_chains config) (wc_id (pl_chain p)) = true /\
  List.length calls = List.length (pl_assets p) /\
  map fst hs = map wa_symbol (pl_assets p) /\
  map (fun c => fst (fst c)) calls = map wa_contractAddress (pl_assets p).
Proof.
  unfold onMintRequest. destruct (JsObject.get_truthy _ _); simpl; [|discriminate].
  intros H. split; [reflexivity|]. exact (mint_loop_ok _ _ _ _ _ _ _ H).
Qed.

Lemma onMintRequest_success_witness :
  exists calls hs,
    onMintRequest WfExamples.stub_getAddress WfExamples.stub_submit WfExamples.config_default
      WfMoreExamples.payload_two = (calls, Ok hs) /\
    JsObject.get_truthy (cfg_chains WfExamples.config_default)
      (wc_id (pl_chain WfMoreExamples.payload_two)) = true /\
    List.length calls = List.length (pl_assets WfMoreExamples.payload_two) /\
    map fst hs = map wa_symbol (pl_assets WfMoreExamples.payload_two) /\
    map (fun c => fst (fst c)) calls = map wa_contractAddress (pl_assets WfMoreExamples.payload_two).
Proof.
  do 2 eexists. split; [vm_compute; reflexivity|].
  apply (onMintRequest_success WfExamples.stub_getAddress WfExamples.stub_submit
           WfExamples.config_default WfMoreExamples.payload_two).
  vm_compute. reflexivity.
Defined.

Lemma in_skip_ws c l : In c l -> Js.is_ws c = false -> In c (Js.skip_ws l).
Proof.
  induction l as [|c' l IH]; simpl; [tauto|].
  intros [->|Hin] Hws.
  - rewrite Hws. left. reflexivity.
  - destruct (Js.is_ws c'); [apply IH; assumption|right; exact Hin].
Qed.

Lemma radix_digits_all radix l d :
  Eligibility.radix_digits radix l = (d, []) -> forall c, In c l -> Eligibility.hex_val c <> None.
Proof.
  revert d. induction l as [|c' l IH]; simpl; intros d H c Hin; [destruct Hin|].
  destruct (Eligibility.hex_val c') as [v|] eqn:Hv; [|discriminate].
  destruct (Z.ltb v radix); [|discriminate].
  destruct (Eligibility.radix_digits radix l) as [d' r'] eqn:E. injection H as _ ->.
  destruct Hin as [<-|Hin]; [congruence|exact (IH _ eq_refl c Hin)].
Qed.

Lemma radix_digits_dot radix l :
  In "."%char l -> exists d c rest, Eligibility.radix_digits radix l = (d, c :: rest).
Proof.
  intros Hin. destruct (Eligibility.radix_digits radix l) as [d [|c rest]] eqn:E; [|eauto].
  exfalso. exact (radix_digits_all _ _ _ E _ Hin eq_refl).
Qed.

Lemma bigint_of_string_dot s : In "."%char (list_ascii_of_string s) -> bigint_of_string s = None.
Proof.
  intros H. unfold bigint_of_string.
  assert (Hd : In "."%char (rev (Js.skip_ws (rev (Js.skip_ws (list_ascii_of_string s)))))).
  { apply (proj1 (in_rev _ _)). apply in_skip_ws; [|reflexivity].
    apply (proj1 (in_rev _ _)). apply in_skip_ws; [exact H|reflexivity]. }
  revert Hd. generalize (rev (Js.skip_ws (rev (Js.skip_ws (list_ascii_of_string s))))).
  intros l Hd. destruct l as [|z [|x r]]; [destruct Hd| |].
  - destruct Hd as [->|[]]. reflexivity.
  - match goal with |- (if Z.eqb ?R 10 then _ else _) = None => destruct (Z.eqb R 10) eqn:Hr end.
    + destruct (Ascii.eqb z "-") eqn:Em; [|destruct (Ascii.eqb z "+") eqn:Ep];
        cbv beta iota zeta.
      * assert (Hd' : In "."%char (x :: r)) by
          (destruct Hd as [->|Hd]; [cbv in Em; discriminate Em|exact Hd]).
        destruct (radix_digits_dot 10 _ Hd') as (d & c & rest & ->). reflexivity.
      * assert (Hd' : In "."%char (x :: r)) by
          (destruct Hd as [->|Hd]; [cbv in Ep; discriminate Ep|exact Hd]).
        destruct (radix_digits_dot 10 _ Hd') as (d & c & rest & ->). reflexivity.
      * destruct (radix_digits_dot 10 _ Hd) as (d & c & rest & ->). reflexivity.
    + assert (Hd' : In "."%char r).
      { destruct Hd as [->|[->|Hd]]; [cbv in Hr; discriminate Hr| |exact Hd].
        destruct (Ascii.eqb z "0"); cbv in Hr; discriminate Hr. }
      match goal with |- context [Eligibility.radix_digits ?R r] =>
        destruct (radix_digits_dot R r Hd') as (d & c & rest & ->) end.
      reflexivity.
Qed.

(** An asset amount written with a decimal point, such as ["1.5"], is
    rejected by [BigInt] with a syntax error: the loop reaching that asset
    stops there, before submitting anything for it or for any later
    asset. *)
Theorem fractional_amount_rejected g s config beneficiary asset l :
  In "."%char (list_ascii_of_string (wa_amount asset)) ->
  bigint_of_string (wa_amount asset) = None /\
  mint_loop g s config beneficiary (asset :: l) = ([], Throw BigIntSyntaxError).
Proof.
  intros H. split; [exact (bigint_of_string_dot _ H)|].
  cbn [mint_loop]. unfold scaledAmount. rewrite (bigint_of_string_dot _ H). reflexivity.
Qed.

Lemma fractional_amount_rejected_witness :
  In "."%char (list_ascii_of_string (wa_amount WfMoreExamples.wf_half)) /\
  bigint_of_string (wa_amount WfMoreExamples.wf_half) = None /\
  mint_loop WfExamples.stub_getAddress WfExamples.stub_submit WfExamples.config_default
    "0x00000000000000000000000000000000000000b1" [WfMoreExamples.wf_half; WfExamples.wf_gold] =
    ([], Throw BigIntSyntaxError).
Proof.
  assert (H : In "."%char (list_ascii_of_string (wa_amount WfMoreExamples.wf_half)))
    by (simpl; right; left; reflexivity).
  split; [exact H|].
  apply (fractional_amount_rejected WfExamples.stub_getAddress WfExamples.stub_submit
           WfExamples.config_default "0x00000000000000000000000000000000000000b1"
           WfMoreExamples.wf_half [WfExamples.wf_gold]).
  simpl; right; left; reflexivity.
Defined.

End WorkflowFacts.

(* ----------------------------------------------------------------- *)
(** ** The single-chain registry built through its API *)

Module RegistryFacts.

Import Registry.

Definition reg_inv (r : AssetRegistry) : Prop :=
  (forall k a, assets r !! k = Some a -> asset_id a = k) /\
  (forall k b, baskets r !! k = Some b -> basket_id b = k /\ first_missing (assets r) (basket_assets b) = None).

Lemma first_missing_mono (m m' : gmap string Asset) l :
  first_missing m l = None -> (forall k a, m !! k = Some a -> m' !! k = Some a) ->
  first_missing m' l = None.
Proof.
  intros H Hm. induction l as [|ba l IH]; simpl in *; [reflexivity|].
  destruct (m !! ba_assetId ba) as [a|] eqn:E; [|discriminate].
  rewrite (Hm _ _ E). exact (IH H).
Qed.

Lemma reg_inv_step r op : reg_inv r -> reg_inv (apply_op r op).
Proof.
  intros [Ha Hb]. destruct op as [now a|now b]; simpl.
  - unfold registerAsset. destruct (assets r !! asset_id a) eqn:E; [split; assumption|]. simpl.
    assert (Hmono : forall (v : Asset) k x, assets r !! k = Some x -> <[asset_id a := v]> (assets r) !! k = Some x).
    { intros v k x Hk. rewrite lookup_insert_ne; [exact Hk|]. intros Heq. subst k. congruence. }
    split.
    + intros k x Hk. simpl in Hk. destruct (String.eq_dec (asset_id a) k) as [<-|Hne].
      * rewrite lookup_insert_eq in Hk. injection Hk as <-. reflexivity.
      * rewrite lookup_insert_ne in Hk by exact Hne. exact (Ha _ _ Hk).
    + intros k x Hk. simpl in Hk |- *. destruct (Hb _ _ Hk) as [Hid Hf]. split; [exact Hid|].
      exact (first_missing_mono _ _ _ Hf (Hmono _)).
  - unfold createBasket. destruct (baskets r !! basket_id b) eqn:E; [split; assumption|].
    destruct (first_missing (assets r) (basket_assets b)) eqn:Hf; [split; assumption|].
    destruct (negb _); [split; assumption|]. simpl. split; [exact Ha|].
    intros k x Hk. simpl in Hk |- *. destruct (String.eq_dec (basket_id b) k) as [<-|Hne].
    + rewrite lookup_insert_eq in Hk. injection Hk as <-. split; [reflexivity|exact Hf].
    + rewrite lookup_insert_ne in Hk by exact Hne. exact (Hb _ _ Hk).
Qed.

Lemma reg_inv_run ops : reg_inv (run_ops ops empty_registry).
Proof.
  unfold run_ops.
  assert (H0 : reg_inv empty_registry).
  { split; intros k x Hk; simpl in Hk; rewrite lookup_empty in Hk; discriminate. }
  revert H0. generalize empty_registry as r.
  induction ops as [|op ops IH]; intros r Hr; simpl; [exact Hr|].
  apply IH, reg_inv_step, Hr.
Qed.

Lemma expand_entries_full (m : gmap string Asset) total l :
  first_missing m l = None -> (forall k a, m !! k = Some a -> asset_id a = k) ->
  map (fun e => asset_id (fst e)) (expand_entries m total l) = map ba_assetId l /\
  map snd (expand_entries m total l) =
    map (fun ba => Js.div (Js.mul total (ba_weight ba)) (Js.of_Z 100)) l.
Proof.
  intros Hf Hm. induction l as [|ba l IH]; simpl in *; [split; reflexivity|].
  destruct (m !! ba_assetId ba) as [a|] eqn:E; [|discriminate].
  destruct (IH Hf) as [H1 H2]. simpl. rewrite H1, H2, (Hm _ _ E). split; reflexivity.
Qed.

(** In a registry built from empty by any sequence of [registerAsset] and
    [createBasket] calls (failed calls included), every stored basket is
    stored under its own id and references registered assets only, so
    [expandBasket] on it succeeds with one entry per basket entry, in the
    basket's order, holding the asset registered under that entry's
    asset-id (itself stored under its own id) and with amount
    [(parseFloat(totalAmount) * weight) / 100]: no entry is ever
    skipped. *)
Theorem registry_baskets_expand_fully ops id b amount :
  baskets (run_ops ops empty_registry) !! id = Some b ->
  basket_id b = id /\
  exists l, expandBasket id amount (run_ops ops empty_registry) = Ok l /\
    Forall2 (fun ba e => assets (run_ops ops empty_registry) !! ba_assetId ba = Some (fst e))
            (basket_assets b) l /\
    map (fun e => asset_id (fst e)) l = map ba_assetId (basket_assets b) /\
    map snd l = map (fun ba => Js.div (Js.mul (Js.parseFloat amount) (ba_weight ba)) (Js.of_Z 100))
                    (basket_assets b).
Proof.
  intros Hb. destruct (reg_inv_run ops) as [Ha Hbs].
  destruct (Hbs _ _ Hb) as [Hid Hf]. split; [exact Hid|].
  unfold expandBasket. rewrite Hb. eexists. split; [reflexivity|]. split.
  - rewrite <- (ExpandFacts.filter_registered_full _ _ Hf) at 1.
    apply ExpandFacts.expand_entries_assets.
  - apply expand_entries_full; assumption.
Qed.

Lemma registry_baskets_expand_fully_witness :
  baskets (run_ops Examples.setup_ops empty_registry) !! "mixed" = Some Examples.stored_6040 /\
  basket_id Examples.stored_6040 = "mixed" /\
  exists l, expandBasket "mixed" "1000" (run_ops Examples.setup_ops empty_registry) = Ok l /\
    Forall2 (fun ba e => assets (run_ops Examples.setup_ops empty_registry) !! ba_assetId ba = Some (fst e))
            (basket_assets Examples.stored_6040) l /\
    map (fun e => asset_id (fst e)) l = map ba_assetId (basket_assets Examples.stored_6040) /\
    map snd l = map (fun ba => Js.div (Js.mul (Js.parseFloat "1000") (ba_weight ba)) (Js.of_Z 100))
                    (basket_assets Examples.stored_6040).
Proof.
  assert (H : baskets (run_ops Examples.setup_ops empty_registry) !! "mixed" = Some Examples.stored_6040)
    by (vm_compute; reflexivity).
  split; [exact H|].
  exact (registry_baskets_expand_fully Examples.setup_ops "mixed" Examples.stored_6040 "1000" H).
Defined.

Lemma apply_op_stable r op :
  (forall id a, assets r !! id = Some a -> assets (apply_op r op) !! id = Some a) /\
  (forall id b, baskets r !! id = Some b -> baskets (apply_op r op) !! id = Some b).
Proof.
  destruct op as [now a|now b]; simpl.
  - unfold registerAsset. destruct (assets r !! asset_id a) eqn:E; [split; auto|]. simpl.
    split; [|auto]. intros id x Hx. rewrite lookup_insert_ne; [exact Hx|]. intros Heq. subst id. congruence.
  - unfold createBasket. destruct (baskets r !! basket_id b) eqn:E; [split; auto|].
    destruct (first_missing _ _); [split; auto|]. destruct (negb _); [split; auto|]. simpl.
    split; [auto|]. intros id x Hx. rewrite lookup_insert_ne; [exact Hx|]. intros Heq. subst id. congruence.
Qed.

(** The registry never changes or drops an entry: an asset or a basket
    found under an id is found, unchanged, under that id after any further
    sequence of [registerAsset] and [createBasket] calls (registering an
    existing id throws). *)
Theorem registry_entries_stable ops r id a b :
  (assets r !! id = Some a -> assets (run_ops ops r) !! id = Some a) /\
  (baskets r !! id = Some b -> baskets (run_ops ops r) !! id = Some b).
Proof.
  unfold run_ops. revert r. induction ops as [|op ops IH]; intros r; simpl; [split; auto|].
  destruct (apply_op_stable r op) as [H1 H2]. destruct (IH (apply_op r op)) as [H3 H4].
  split; intros H; [apply H3, H1, H|apply H4, H2, H].
Qed.

Lemma registry_entries_stable_witness :
  assets Examples.registry_6040 !! "usdc" = Some (mkAsset "usdc" Monetary "USD Coin" "USDC" 6
      "0xA0b86991c6218b36c1d19D4a2e9Eb0cE3606eB48" None "t1" "t1") /\
  baskets Examples.registry_6040 !! "mixed" = Some Examples.stored_6040 /\
  assets (run_ops Examples.setup_ops Examples.registry_6040) !! "usdc" =
    Some (mkAsset "usdc" Monetary "USD Coin" "USDC" 6
      "0xA0b86991c6218b36c1d19D4a2e9Eb0cE3606eB48" None "t1" "t1") /\
  baskets (run_ops Examples.setup_ops Examples.registry_6040) !! "mixed" = Some Examples.stored_6040.
Proof.
  assert (Ha : assets Examples.registry_6040 !! "usdc" = Some (mkAsset "usdc" Monetary "USD Coin" "USDC" 6
      "0xA0b86991c6218b36c1d19D4a2e9Eb0cE3606eB48" None "t1" "t1")) by (vm_compute; reflexivity).
  assert (Hb : baskets Examples.registry_6040 !! "mixed" = Some Examples.stored_6040)
    by (vm_compute; reflexivity).
  destruct (registry_entries_stable Examples.setup_ops Examples.registry_6040 "usdc"
              (mkAsset "usdc" Monetary "USD Coin" "USDC" 6
                 "0xA0b86991c6218b36c1d19D4a2e9Eb0cE3606eB48" None "t1" "t1")
              Examples.stored_6040) as [H1 _].
  destruct (registry_entries_stable Examples.setup_ops Examples.registry_6040 "mixed"
              (mkAsset "usdc" Monetary "USD Coin" "USDC" 6
                 "0xA0b86991c6218b36c1d19D4a2e9Eb0cE3606eB48" None "t1" "t1")
              Examples.stored_6040) as [_ H2].
  split; [exact Ha|]. split; [exact Hb|]. split; [exact (H1 Ha)|exact (H2 Hb)].
Defined.

End RegistryFacts.

(* ----------------------------------------------------------------- *)
(** ** Keys of the mint-record maps *)

Module MintKeyFacts.

(** In both mint services, every record in the map built from empty by
    any sequence of [createMintRecord] and [updateMintRecord] calls is
    stored under its own [id], and that id is [mint-<transactionId>]
    (single-chain) or [mint-<chainId>-<transactionId>] (multi-chain) for
    the record's own fields: updates never change these fields. *)
Theorem mint_records_keyed ops mcops :
  map_Forall (fun k r => MintState.mr_id r = k /\ k = MintState.mint_id (MintState.mr_transactionId r))
             (MintState.run_mint_ops ops ∅) /\
  map_Forall (fun k r => McMintState.mm_id r = k /\
                         k = McMintState.mint_id (McMintState.mm_chainId r) (McMintState.mm_transactionId r))
             (McMintState.run_mint_ops mcops ∅).
Proof.
  split.
  - unfold MintState.run_mint_ops.
    assert (H0 : map_Forall (fun k r => MintState.mr_id r = k /\ k = MintState.mint_id (MintState.mr_transactionId r))
                   (∅ : gmap string MintState.MintRecord)) by apply map_Forall_empty.
    revert H0. generalize (∅ : gmap string MintState.MintRecord) as m.
    induction ops as [|op ops IH]; intros m Hm; simpl; [exact Hm|]. apply IH.
    destruct op as [now b t ben amt a|now id u]; simpl.
    + apply map_Forall_insert_2; [split; reflexivity|exact Hm].
    + unfold MintState.updateMintRecord. destruct (m !! id) as [r|] eqn:E; [|exact Hm].
      apply map_Forall_insert_2; [|exact Hm]. exact (Hm _ _ E).
  - unfold McMintState.run_mint_ops.
    assert (H0 : map_Forall (fun k r => McMintState.mm_id r = k /\
                   k = McMintState.mint_id (McMintState.mm_chainId r) (McMintState.mm_transactionId r))
                   (∅ : gmap string McMintState.McMintRecord)) by apply map_Forall_empty.
    revert H0. generalize (∅ : gmap string McMintState.McMintRecord) as m.
    induction mcops as [|op mcops IH]; intros m Hm; simpl; [exact Hm|]. apply IH.
    destruct op as [now b c cn t ben amt a|now id u]; simpl.
    + apply map_Forall_insert_2; [split; reflexivity|exact Hm].
    + unfold McMintState.updateMintRecord. destruct (m !! id) as [r|] eqn:E; [|exact Hm].
      apply map_Forall_insert_2; [|exact Hm]. exact (Hm _ _ E).
Qed.

End MintKeyFacts.

(* ----------------------------------------------------------------- *)
(** ** Per-chain entries of [getBasketCrossChainStats] *)

Module CrossChainFacts.

Import ObjFacts StatsSpec StatsFacts CrossChainSpec.

Lemma by_chain_update_keys o m :
  map fst (McMintStats.by_chain_update o m) =
  if negb (JsObject.get_truthy o (McMintState.mm_chainId m))
  then map fst o ++ [McMintState.mm_chainId m] else map fst o.
Proof.
  unfold McMintStats.by_chain_update. rewrite map_fst_bump_own.
  destruct (negb _); [unfold JsObject.set_new; rewrite map_app|]; reflexivity.
Qed.

Lemma by_chain_update_in o m c n t :
  In (c, (n, t)) (McMintStats.by_chain_update o m) ->
  let a := Js.parseFloat (McMintState.mm_amount m) in
  (c <> McMintState.mm_chainId m /\ In (c, (n, t)) o) \/
  (c = McMintState.mm_chainId m /\
   ((exists n0 t0, In (c, (n0, t0)) o /\ n = S n0 /\ t = Js.add t0 a) \/
    (~ In c (map fst o) /\ n = 1%nat /\ t = Js.add (Js.of_Z 0) a))).
Proof.
  unfold McMintStats.by_chain_update, McMintStats.bump_own. intros H. cbv zeta in H |- *.
  apply in_map_iff in H as [[c' [n' t']] [Heq Hin]]. simpl in Heq.
  destruct (String.eqb c' (McMintState.mm_chainId m)) eqn:Ec.
  - apply String.eqb_eq in Ec. injection Heq as <- <- <-. right. split; [exact Ec|].
    destruct (JsObject.get_truthy o (McMintState.mm_chainId m)) eqn:Hg; simpl in Hin.
    + left. exists n', t'. auto.
    + unfold JsObject.set_new in Hin. apply in_app_or in Hin as [Hin|[Hin|[]]].
      * left. exists n', t'. auto.
      * injection Hin as <- <- <-. right. split; [|auto].
        intros Hc. apply has_own_in in Hc. unfold JsObject.get_truthy in Hg.
        rewrite Hc in Hg. discriminate.
  - injection Heq as <- <- <-. left. split.
    + intros ->. rewrite String.eqb_refl in Ec. discriminate.
    + destruct (negb _); [|exact Hin].
      unfold JsObject.set_new in Hin. apply in_app_or in Hin as [Hin|[Hin|[]]]; [exact Hin|].
      injection Hin as <- _ _. rewrite String.eqb_refl in Ec. discriminate.
Qed.

Lemma by_chain_entry l o c n t :
  List.NoDup (map fst o) ->
  In (c, (n, t)) (fold_left McMintStats.by_chain_update l o) ->
  (exists n0 t0, In (c, (n0, t0)) o /\
     n = (n0 + List.length (on_chain c l))%nat /\ t = chain_total c l t0) \/
  (~ In c (map fst o) /\ n = List.length (on_chain c l) /\ t = chain_total c l (Js.of_Z 0)).
Proof.
  revert o n t. induction l as [|m l IH]; intros o n t Hnd H; simpl in H.
  - left. exists n, t. split; [exact H|]. simpl. split; [lia|reflexivity].
  - set (mc := McMintState.mm_chainId m) in *.
    assert (Hnd1 : List.NoDup (map fst (McMintStats.by_chain_update o m)))
      by exact (proj1 (by_chain_fold [m] o Hnd)).
    assert (Hcnt : forall k, List.length (on_chain k (m :: l)) =
               if String.eqb mc k then S (List.length (on_chain k l)) else List.length (on_chain k l)).
    { intros k. unfold on_chain. simpl. fold mc. destruct (String.eqb mc k); reflexivity. }
    assert (Htot : forall k t0, chain_total k (m :: l) t0 =
               if String.eqb mc k then chain_total k l (Js.add t0 (Js.parseFloat (McMintState.mm_amount m)))
               else chain_total k l t0).
    { intros k t0. unfold chain_total, on_chain. simpl. fold mc. destruct (String.eqb mc k); reflexivity. }
    rewrite Hcnt. setoid_rewrite Htot.
    destruct (IH _ n t Hnd1 H) as [(n1 & t1 & Hin1 & Hn & Ht)|(Hnin & Hn & Ht)].
    + destruct (by_chain_update_in o m c n1 t1 Hin1) as [[Hne Hin]|[Hc [(n0 & t0 & Hin0 & Hn1 & Ht1)|(Hnin & Hn1 & Ht1)]]].
      * left. exists n1, t1. split; [exact Hin|].
        assert (E : String.eqb mc c = false) by (apply String.eqb_neq; intros Heq; apply Hne; rewrite <- Heq; reflexivity).
        rewrite E. auto.
      * left. exists n0, t0. subst c n1 t1. fold mc in Hin0; fold mc in Hn; fold mc in Ht; fold mc. rewrite String.eqb_refl.
        split; [exact Hin0|]. split; [lia|exact Ht].
      * right. subst c n1 t1. fold mc in Hnin; fold mc in Hn; fold mc in Ht; fold mc. rewrite String.eqb_refl.
        split; [exact Hnin|]. split; [lia|exact Ht].
    + assert (Hkeys := by_chain_update_keys o m). fold mc in Hkeys.
      destruct (String.eqb mc c) eqn:E.
      * exfalso. apply String.eqb_eq in E. subst c.
        destruct (by_chain_fold l (McMintStats.by_chain_update o m) Hnd1) as [_ Hin].
        assert (Hfin : In mc (map fst (fold_left McMintStats.by_chain_update l (McMintStats.by_chain_update o m))))
          by (apply in_map_iff; exists (mc, (n, t)); auto).
        apply Hin in Hfin as [Hfin|Hfin]; [contradiction|].
        apply filter_In in Hfin as [_ Hnp]. apply Hnin. rewrite Hkeys.
        unfold not_proto in Hnp.
        destruct (JsObject.get_truthy o mc) eqn:Hg; simpl.
        -- unfold JsObject.get_truthy in Hg.
           destruct (JsObject.has_own o mc) eqn:Ho; [apply has_own_in, Ho|].
           cbn [orb] in Hg. rewrite Hg in Hnp. discriminate.
        -- apply in_or_app. right. left. reflexivity.
      * right. split; [|auto]. intros Hc. apply Hnin. rewrite Hkeys.
        destruct (negb _); [apply in_or_app; left|]; exact Hc.
Qed.

(** When [getBasketCrossChainStats] returns, its [byChain] object has,
    for each chain-id it contains, the number of the basket's completed
    records on that chain and the running [parseFloat] sum of their
    amounts (in record order, from 0); it contains every chain-id of a
    completed record that does not name a built-in property of
    [Object.prototype]. *)
Theorem getBasketCrossChainStats_byChain polluted basketId all c s polluted' :
  McMintStats.getBasketCrossChainStats polluted basketId all = Ok (s, polluted') ->
  let completed := List.filter (McMintStats.status_is Completed)
                     (McMintStats.getMintsByBasket basketId all) in
  let byChain := McMintStats.cs_byChain s in
  (forall n t, In (c, (n, t)) byChain ->
     n = List.length (on_chain c completed) /\ t = chain_total c completed (Js.of_Z 0)) /\
  (not_proto c = true -> on_chain c completed <> [] -> exists n t, In (c, (n, t)) byChain).
Proof.
  unfold McMintStats.getBasketCrossChainStats.
  destruct (McMintStats.by_chain _ _) as [[o p]|e] eqn:E; [|discriminate].
  intros H. injection H as <- _. apply by_chain_ok in E. simpl in E. subst o.
  set (completed := List.filter (McMintStats.status_is Completed)
                      (McMintStats.getMintsByBasket basketId all)).
  set (byChain := fold_left McMintStats.by_chain_update completed []). split.
  - intros n t H.
    destruct (by_chain_entry completed [] c n t (List.NoDup_nil _) H)
      as [(n0 & t0 & [] & _)|(_ & Hn & Ht)].
    split; assumption.
  - intros Hnp Hne.
    destruct (by_chain_fold completed [] (List.NoDup_nil _)) as [_ Hin].
    assert (Hc : In c (map fst byChain)).
    { apply Hin. right. apply filter_In. split; [|exact Hnp].
      destruct (on_chain c completed) as [|m r] eqn:Eo; [contradiction|].
      assert (Hm : In m (on_chain c completed)) by (rewrite Eo; left; reflexivity).
      unfold on_chain in Hm. apply filter_In in Hm as [Hm Heq]. apply String.eqb_eq in Heq.
      apply in_map_iff. exists m. auto. }
    apply in_map_iff in Hc as [[k [n t]] [Hk Hin']]. simpl in Hk. subst k. eauto.
Qed.

Lemma getBasketCrossChainStats_byChain_witness :
  exists s p,
    McMintStats.getBasketCrossChainStats false "multi" mc_mints_two_chains = Ok (s, p) /\
    not_proto "ethereum-sepolia" = true /\
    let completed := List.filter (McMintStats.status_is Completed)
                       (McMintStats.getMintsByBasket "multi" mc_mints_two_chains) in
    on_chain "ethereum-sepolia" completed <> [] /\
    exists n t, In ("ethereum-sepolia", (n, t)) (McMintStats.cs_byChain s) /\
      n = List.length (on_chain "ethereum-sepolia" completed) /\
      t = chain_total "ethereum-sepolia" completed (Js.of_Z 0).
Proof.
  destruct (McMintStats.getBasketCrossChainStats false "multi" mc_mints_two_chains)
    as [[s p]|e] eqn:E; [|vm_compute in E; discriminate].
  exists s, p. split; [reflexivity|].
  destruct (getBasketCrossChainStats_byChain false "multi" mc_mints_two_chains "ethereum-sepolia" s p E)
    as [H1 H2].
  assert (Hnp : not_proto "ethereum-sepolia" = true) by reflexivity.
  split; [exact Hnp|]. intros completed.
  assert (Hne : on_chain "ethereum-sepolia" completed <> []) by (vm_compute; discriminate).
  split; [exact Hne|].
  destruct (H2 Hnp Hne) as (n & t & Hin). exists n, t. split; [exact Hin|]. exact (H1 n t Hin).
Defined.

Lemma has_own_update o m k :
  JsObject.has_own (McMintStats.by_chain_update o m) k =
  JsObject.has_own o k || (String.eqb (McMintState.mm_chainId m) k && not_proto k).
Proof.
  apply Bool.eq_true_iff_eq.
  rewrite orb_true_iff, andb_true_iff, String.eqb_eq, !has_own_in, by_chain_update_keys.
  unfold JsObject.get_truthy, not_proto.
  destruct (JsObject.has_own o (McMintState.mm_chainId m)) eqn:Ho; cbn [orb negb].
  - apply has_own_in in Ho. split; [tauto|]. intros [H|[<- _]]; assumption.
  - destruct (existsb (String.eqb (McMintState.mm_chainId m)) JsObject.prototype_props) eqn:Hp; cbn [orb negb].
    + split; [tauto|]. intros [H|[<- H]]; [exact H|]. rewrite Hp in H. discriminate.
    + rewrite in_app_iff. cbn [In]. split.
      * intros [H|[<-|[]]]; [auto|right; split; [reflexivity|rewrite Hp; reflexivity]].
      * intros [H|[<- _]]; auto.
Qed.

Lemma by_chain_throws o p l :
  (exists e, McMintStats.by_chain (o, p) l = Throw e) <->
  exists l1 m l2, l = l1 ++ m :: l2 /\ McMintState.mm_chainId m = "totalAmount"%string /\
    Forall (fun x => McMintState.mm_chainId x <> "totalAmount"%string) l1 /\
    JsObject.has_own o "totalAmount" = false /\
    (p = true \/ Exists (fun x => McMintState.mm_chainId x = "__proto__"%string) l1).
Proof.
  revert o p. induction l as [|m l IH]; intros o p; simpl.
  - split; [intros [e He]; discriminate|]. intros (l1 & m & l2 & Hl & _). destruct l1; discriminate.
  - destruct (p && String.eqb (McMintState.mm_chainId m) "totalAmount"
                && negb (JsObject.has_own o (McMintState.mm_chainId m))) eqn:Hc.
    + split; [intros _|intros _; eexists; reflexivity].
      apply andb_true_iff in Hc as [Hc Hn]. apply andb_true_iff in Hc as [Hp Ht].
      apply String.eqb_eq in Ht.
      exists [], m, l. split; [reflexivity|]. split; [exact Ht|]. split; [constructor|].
      split; [rewrite <- Ht; apply negb_true_iff, Hn|]. left. exact Hp.
    + rewrite IH. split.
      * intros (l1 & m' & l2 & Hl & Ht & Hf & Ho & Hp).
        rewrite has_own_update in Ho. apply orb_false_iff in Ho as [Ho Hm].
        assert (Hne : McMintState.mm_chainId m <> "totalAmount"%string).
        { intros E. rewrite E in Hm. vm_compute in Hm. discriminate. }
        exists (m :: l1), m', l2. split; [rewrite Hl; reflexivity|]. split; [exact Ht|].
        split; [constructor; assumption|]. split; [exact Ho|].
        destruct Hp as [Hp|Hp].
        -- apply orb_true_iff in Hp as [Hp|Hp]; [left; exact Hp|].
           right. left. apply String.eqb_eq, Hp.
        -- right. right. exact Hp.
      * intros ([|m0 l1] & m' & l2 & Hl & Ht & Hf & Ho & Hp).
        -- simpl in Hl. injection Hl as <- <-. exfalso.
           destruct Hp as [Hp|Hp]; [|inversion Hp].
           rewrite Hp, Ht, Ho in Hc. vm_compute in Hc. discriminate.
        -- simpl in Hl. injection Hl as <- Hl.
           apply List.Forall_cons_iff in Hf as [Hne Hf].
           exists l1, m', l2. split; [exact Hl|]. split; [exact Ht|]. split; [exact Hf|].
           split.
           ++ rewrite has_own_update, Ho. simpl.
              apply andb_false_iff. left. apply String.eqb_neq. exact Hne.
           ++ destruct Hp as [Hp|Hp]; [left; rewrite Hp; reflexivity|].
              apply List.Exists_cons in Hp as [Hp|Hp].
              ** left. apply orb_true_iff. right. apply String.eqb_eq, Hp.
              ** right. exact Hp.
Qed.

Lemma by_chain_polluted o p l o' p' :
  McMintStats.by_chain (o, p) l = Ok (o', p') ->
  p' = p || existsb (fun m => String.eqb (McMintState.mm_chainId m) "__proto__") l.
Proof.
  revert o p. induction l as [|m l IH]; intros o p; simpl.
  - intros H. injection H as _ <-. rewrite orb_false_r. reflexivity.
  - destruct (p && _ && _); [discriminate|]. intros H.
    rewrite (IH _ _ H), orb_assoc. reflexivity.
Qed.

(** [getBasketCrossChainStats] throws exactly when some completed record
    of the basket is on chain ["totalAmount"], no earlier completed record
    is on that chain, and [Object.prototype] already has the [count] and
    [totalAmount] properties when that record is reached: from an earlier
    call, or from an earlier completed record on chain ["__proto__"].  When
    it returns, those properties are there afterwards iff they were there
    before or a completed record of the basket is on chain
    ["__proto__"]. *)
Theorem getBasketCrossChainStats_throws polluted basketId all :
  let completed := List.filter (McMintStats.status_is Completed)
                     (McMintStats.getMintsByBasket basketId all) in
  ((exists e, McMintStats.getBasketCrossChainStats polluted basketId all = Throw e) <->
   exists l1 m l2, completed = l1 ++ m :: l2 /\ McMintState.mm_chainId m = "totalAmount"%string /\
     Forall (fun x => McMintState.mm_chainId x <> "totalAmount"%string) l1 /\
     (polluted = true \/ Exists (fun x => McMintState.mm_chainId x = "__proto__"%string) l1)) /\
  (forall s polluted',
     McMintStats.getBasketCrossChainStats polluted basketId all = Ok (s, polluted') ->
     polluted' = polluted ||
       existsb (fun m => String.eqb (McMintState.mm_chainId m) "__proto__") completed).
Proof.
  intros completed.
  assert (Hb := by_chain_throws [] polluted completed).
  assert (Hp := by_chain_polluted [] polluted completed).
  unfold McMintStats.getBasketCrossChainStats. cbv zeta. fold completed.
  destruct (McMintStats.by_chain ([], polluted) completed) as [[o p]|e] eqn:E.
  - split.
    + split; [intros [e He]; discriminate|]. intros (l1 & m & l2 & H1 & H2 & H3 & H4).
      destruct (proj2 Hb) as [e He]; [exists l1, m, l2; auto|].
      assert (He' : McMintStats.by_chain ([], polluted) completed = Throw e) by exact He.
      rewrite E in He'. discriminate.
    + intros s p' H. injection H as _ <-. exact (Hp o p E).
  - split.
    + split; [intros _|intros _; eexists; reflexivity].
      destruct (proj1 Hb) as (l1 & m & l2 & H1 & H2 & H3 & _ & H5); [exists e; exact E|].
      exists l1, m, l2. auto.
    + intros s p' H. discriminate.
Qed.

End CrossChainFacts.
